(** * Consumer side of asynchronous message pacts (package [message/v3])

    A shallow embedding of [message/v3/asynchronous_message.go] and of the
    contract it relies on.  The Go code is a thin orchestrator: it drives a
    native matching engine (package [internal/native]) and the Go standard
    library.  Both are kept behind interfaces here, so that every statement
    about the orchestrator holds whatever the engine and the runtime do:

    - [GoRuntime]: the pieces of the Go runtime and standard library that the
      source calls ([encoding/json], [reflect], [fmt], [os], [path/filepath]);
    - [native.Engine]: the operations of [internal/native] that the source
      calls (message servers, message handles, reification, pact files).

    The second half of the file gives one instance of each: a reference
    runtime over a small JSON syntax, and the engine described by the
    specification (matcher model, reification, contract store). *)

From Stdlib Require Import ZArith Ascii String List Lia DecimalString.
From stdpp Require Import base option list gmap strings.

Set Warnings "-register-all".
Set Default Proof Using "Type".

Local Open Scope string_scope.
Local Open Scope list_scope.
Local Open Scope nat_scope.
Local Open Scope stdpp_scope.

(** ** Go errors *)

Module Go.

(** A Go [error] value.  [errorString] is what [errors.New] and a
    [fmt.Errorf] without the wrapping verb build; [wrapError] is what
    [fmt.Errorf] builds with the wrapping verb: it keeps the cause. *)
Inductive error : Type :=
| errorString (s : string)
| wrapError (msg : string) (err : error).

(** [err.Error()] *)
Definition Error (e : error) : string :=
  match e with
  | errorString s => s
  | wrapError msg _ => msg
  end.

(** [errors.Unwrap(err)] *)
Definition Unwrap (e : error) : option error :=
  match e with
  | errorString _ => None
  | wrapError _ err => Some err
  end.

Global Instance error_eq_dec : EqDecision error.
Proof. solve_decision. Defined.

End Go.

Import Go.

(** ** The message handed to the consumer *)

(** Modelled from the spec: the declaration of [AsynchronousMessage] is in a
    file of the package that is not available; the source only reads and
    writes its [Content] field.  The specification's ReifiedMessage has a
    description, a concrete content value and a metadata map. *)
Record AsynchronousMessage (any : Type) : Type := mkAsynchronousMessage {
  Content : any;
  Description : string;
  Metadata : gmap string string;
}.
Arguments mkAsynchronousMessage {any}.
Arguments Content {any}.
Arguments Description {any}.
Arguments Metadata {any}.

(** [m.Content = v] *)
Definition set_Content {any : Type} (m : AsynchronousMessage any) (v : any)
  : AsynchronousMessage any :=
  {| Content := v; Description := Description m; Metadata := Metadata m |}.

(** Modelled from the spec: the declaration of [Config] is not available; the
    source reads [Consumer], [Provider] and [PactDir], which is the
    configuration the specification lists (pact directory location and
    consumer/provider identity). *)
Record Config : Type := mkConfig {
  Consumer : string;
  Provider : string;
  PactDir : string;
}.

Definition set_PactDir (c : Config) (dir : string) : Config :=
  {| Consumer := Consumer c; Provider := Provider c; PactDir := dir |}.

(** ** The Go runtime the source relies on *)

Class GoRuntime : Type := {
  (** values of [interface{}] *)
  any : Type;
  (** the nil interface value, the zero value of a field of type [interface{}] *)
  nil : any;
  (** [reflect.Type] *)
  rtype : Type;
  (** [reflect.TypeOf(v)]; [None] is the nil [reflect.Type] *)
  reflect_TypeOf : any → option rtype;
  (** [t.Name()] *)
  rtype_Name : rtype → string;
  (** [json.Marshal(v)] *)
  json_Marshal : any → string + error;
  (** [json.Unmarshal(s, &x)] for [x] of type [interface{}] holding the given
      value: the value [x] holds afterwards, and the error *)
  json_Unmarshal : string → any → any * option error;
  (** [json.Unmarshal(s, &m)] for a zero [m] of type [AsynchronousMessage] *)
  json_Unmarshal_AsynchronousMessage : string → AsynchronousMessage any + error;
  (** [fmt.Sprintf("%+v", v)] *)
  fmt_plus_v : any → string;
  (** [os.Getwd()] *)
  os_Getwd : string * option error;
  (** [filepath.Join(elem...)] *)
  filepath_Join : list string → string;
}.

(** Modelled from the spec: [models.V3ProviderState] is declared in a package
    that is not available; the source reads [Name] and [Parameters].  A
    provider state is a name with a mapping of parameters. *)
Record V3ProviderState `{GoRuntime} : Type := mkV3ProviderState {
  Name : string;
  Parameters : gmap string any;
}.

(** ** The native engine the source relies on *)

Module native.

(** The operations of package [internal/native] called by the source, with
    the state of the engine (and of the file system it writes to) passed
    explicitly.  [MessageServer] and [Message] stand for the pointers
    [*MessageServer] and [*Message]. *)
Class Engine `{GoRuntime} : Type := {
  state : Type;
  MessageServer : Type;
  Message : Type;
  (** [native.Init()] *)
  Init : state → state;
  (** [NewMessageServer(consumer, provider)] *)
  NewMessageServer : string → string → state → MessageServer * state;
  (** [NewMessage()] on a [*MessageServer] *)
  NewMessage : MessageServer → state → Message * state;
  (** [WritePactFile(dir, overwrite)] on a [*MessageServer] *)
  WritePactFile : MessageServer → string → bool → state → option error * state;
  (** [GivenWithParameter(state, params)] on a [*Message] *)
  GivenWithParameter : Message → string → gmap string any → state → state;
  (** [ExpectsToReceive(description)] on a [*Message] *)
  ExpectsToReceive : Message → string → state → state;
  (** [WithMetadata(metadata)] on a [*Message] *)
  WithMetadata : Message → gmap string string → state → state;
  (** [WithContents(contentType, body)] on a [*Message] *)
  WithContents : Message → string → string → state → state;
  (** [WithJSONContents(content)] on a [*Message] *)
  WithJSONContents : Message → any → state → state;
  (** [ReifyMessage()] on a [*Message]; it reads the state of the engine *)
  ReifyMessage : Message → state → string;
}.

End native.

(** ** The source: [message/v3/asynchronous_message.go] *)

(** A call returns or panics (a nil pointer is dereferenced, a nil function
    is called). *)
Inductive outcome (A : Type) : Type :=
| Returned (a : A)
| Panicked.
Arguments Returned {A}.
Arguments Panicked {A}.

Section Source.
Context `{R : GoRuntime} `{N : !native.Engine}.

(** [type AsynchronousConsumer func(AsynchronousMessage) error]; the
    result is [None] for a nil error. *)
Definition AsynchronousConsumer : Type :=
  AsynchronousMessage any → option error.

Record Pact : Type := mkPact {
  config : Config;
  (** the native handle, nil until [validateConfig] has run *)
  messageserver : option native.MessageServer;
}.

Record Message : Type := mkMessage {
  (** the native handle; [AddAsynchronousMessage], the one place where the
      source makes a [Message], sets it *)
  messageHandle : native.Message;
  messagePactV3 : Pact;
  (** type to marshal the content into; nil by default *)
  Type_ : any;
  (** the handler for this message; nil until [ConsumedBy] *)
  handler : option AsynchronousConsumer;
}.

Definition set_Type (m : Message) (t : any) : Message :=
  {| messageHandle := messageHandle m; messagePactV3 := messagePactV3 m;
     Type_ := t; handler := handler m |}.

Definition set_handler (m : Message) (h : option AsynchronousConsumer) : Message :=
  {| messageHandle := messageHandle m; messagePactV3 := messagePactV3 m;
     Type_ := Type_ m; handler := h |}.

(** *** Effects

    What a call does besides returning: it changes the state of the native
    engine, it calls the consumer's handler, it asks the engine to write
    the pact file, it reports to [*testing.T].  The last three are recorded
    in order.  Writes to the debug log are not modelled. *)
Inductive event : Type :=
| Handled (m : AsynchronousMessage any) (result : option error)
| Wrote (server : native.MessageServer) (dir : string) (overwrite : bool)
        (result : option error)
| TestErrorf (msg : string).

Definition Exec (A : Type) : Type :=
  native.state → outcome A * native.state * list event.

Definition ret {A} (a : A) : Exec A := λ s, (Returned a, s, []).

Definition bind {A B} (c : Exec A) (k : A → Exec B) : Exec B :=
  λ s,
    match c s with
    | (Returned a, s1, t1) =>
        let '(o, s2, t2) := k a s1 in (o, s2, t1 ++ t2)
    | (Panicked, s1, t1) => (Panicked, s1, t1)
    end.

Definition panic {A} : Exec A := λ s, (Panicked, s, []).

Definition emit (ev : event) : Exec unit := λ s, (Returned tt, s, [ev]).

(** calls into the engine *)
Definition call {A} (f : native.state → A * native.state) : Exec A :=
  λ s, let '(a, s') := f s in (Returned a, s', []).

Definition call_ (f : native.state → native.state) : Exec unit :=
  λ s, (Returned tt, f s, []).

Definition read {A} (f : native.state → A) : Exec A :=
  λ s, (Returned (f s), s, []).

(** dereference of a pointer that may be nil *)
Definition deref {A} (p : option A) : Exec A :=
  match p with
  | Some a => ret a
  | None => panic
  end.

Global Instance Exec_ret : MRet Exec := @ret.
Global Instance Exec_bind : MBind Exec := λ A B k c, bind c k.

(** *** The builder *)

Definition Given (st : V3ProviderState) (m : Message) : Exec Message :=
  call_ (native.GivenWithParameter (messageHandle m) (Name st) (Parameters st));;
  ret m.

Definition ExpectsToReceive (description : string) (m : Message) : Exec Message :=
  call_ (native.ExpectsToReceive (messageHandle m) description);;
  ret m.

Definition WithMetadata (metadata : gmap string string) (m : Message) : Exec Message :=
  call_ (native.WithMetadata (messageHandle m) metadata);;
  ret m.

Definition WithBinaryContent (contentType body : string) (m : Message) : Exec Message :=
  call_ (native.WithContents (messageHandle m) contentType body);;
  ret m.

Definition WithContent (contentType body : string) (m : Message) : Exec Message :=
  call_ (native.WithContents (messageHandle m) contentType body);;
  ret m.

Definition WithJSONContent (content : any) (m : Message) : Exec Message :=
  call_ (native.WithJSONContents (messageHandle m) content);;
  ret m.

Definition AsType (t : any) (m : Message) : Exec Message :=
  ret (set_Type m t).

Definition ConsumedBy (h : option AsynchronousConsumer) (m : Message) : Exec Message :=
  ret (set_handler m h).

(** *** The pact *)

(** [validateConfig] changes [p] in place; the changed [p] is returned with
    the error. *)
Definition validateConfig (p : Pact) : Exec (Pact * option error) :=
  let '(dir, _) := os_Getwd in
  let p :=
    if decide (PactDir (config p) = "")
    then {| config := set_PactDir (config p) (filepath_Join [dir; "pacts"]);
            messageserver := messageserver p |}
    else p in
  s ← call (native.NewMessageServer (Consumer (config p)) (Provider (config p)));
  ret ({| config := config p; messageserver := Some s |}, None).

(** The result is Go's pair of a [*Pact] and an [error]. *)
Definition NewMessagePact (config : Config) : Exec (option Pact * option error) :=
  let provider := {| config := config; messageserver := None |} in
  r ← validateConfig provider;
  let '(provider, err) := r in
  match err with
  | Some e => ret (None, Some e)
  | None =>
      call_ native.Init;;
      ret (Some provider, err)
  end.

Definition AddAsynchronousMessage (p : Pact) : Exec Message :=
  server ← deref (messageserver p);
  message ← call (native.NewMessage server);
  ret {| messageHandle := message; messagePactV3 := p;
         Type_ := nil; handler := None |}.

Definition AddMessage (p : Pact) : Exec Message :=
  AddAsynchronousMessage p.

(** *** Verification *)

(** the last two steps of [verifyMessageConsumerRaw]: the handler, then the
    pact file *)
Definition yield (p : Pact) (messageToVerify : Message)
    (handler : option AsynchronousConsumer) (m : AsynchronousMessage any)
  : Exec (Message * option error) :=
  h ← deref handler;
  let err := h m in
  emit (Handled m err);;
  match err with
  | Some e => ret (messageToVerify, Some e)
  | None =>
      server ← deref (messageserver p);
      r ← call (native.WritePactFile server (PactDir (config p)) false);
      emit (Wrote server (PactDir (config p)) false r);;
      ret (messageToVerify, r)
  end.

(** [messageToVerify.Type] is written through a pointer by the decoder; the
    message as it is after the call is returned with the error. *)
Definition verifyMessageConsumerRaw (p : Pact) (messageToVerify : Message)
    (handler : option AsynchronousConsumer) : Exec (Message * option error) :=
  body ← read (native.ReifyMessage (messageHandle messageToVerify));
  match json_Unmarshal_AsynchronousMessage body with
  | inr _ =>
      ret (messageToVerify,
           Some (errorString
             "unexpected response from message server, this is a bug in the framework"))
  | inl m =>
      match reflect_TypeOf (Type_ messageToVerify) with
      | Some t =>
          if decide (rtype_Name t ≠ "interface") then
            match json_Marshal (Content m) with
            | inr _ =>
                ret (messageToVerify,
                     Some (errorString ("unable to generate message for type: "
                                        +:+ fmt_plus_v (Type_ messageToVerify))))
            | inl s =>
                let '(v, err) := json_Unmarshal s (Type_ messageToVerify) in
                let messageToVerify := set_Type messageToVerify v in
                match err with
                | Some e =>
                    ret (messageToVerify,
                         Some (errorString ("unable to narrow type to "
                                            +:+ rtype_Name t +:+ ": " +:+ Error e)))
                | None =>
                    yield p messageToVerify handler
                      (set_Content m (Type_ messageToVerify))
                end
            end
          else yield p messageToVerify handler m
      | None => yield p messageToVerify handler m
      end
  end.

(** The ways a verification can end, from the state [s]: before the
    handler with an error, in the handler (which is nil, or returns an
    error), or after it, with the pact file (on a nil server, or with the
    result of the write). *)
Inductive verification (p : Pact) (handler : option AsynchronousConsumer)
    (s : native.state)
  : outcome (Message * option error) → native.state → list event → Prop :=
| stopped_early msg e :
    verification p handler s (Returned (msg, Some e)) s []
| handler_nil :
    handler = None →
    verification p handler s Panicked s []
| handler_failed h m msg e :
    handler = Some h → h m = Some e →
    verification p handler s (Returned (msg, Some e)) s [Handled m (Some e)]
| server_nil h m :
    handler = Some h → h m = None → messageserver p = None →
    verification p handler s Panicked s [Handled m None]
| file_written h m msg server r s' :
    handler = Some h → h m = None → messageserver p = Some server →
    native.WritePactFile server (PactDir (config p)) false s = (r, s') →
    verification p handler s (Returned (msg, r)) s'
      [Handled m None; Wrote server (PactDir (config p)) false r].

(** [Verify] on a [*Pact] *)
Definition Verify (p : Pact) (message : Message)
    (handler : option AsynchronousConsumer) : Exec (Message * option error) :=
  r ← verifyMessageConsumerRaw p message handler;
  match snd r with
  | Some err =>
      emit (TestErrorf ("VerifyMessageConsumer failed: " +:+ Error err));;
      ret r
  | None => ret r
  end.

(** [Verify] on a [*Message] *)
Definition Message_Verify (m : Message) : Exec (Message * option error) :=
  Verify (messagePactV3 m) m (handler m).

End Source.

(** ** The matcher model *)

(** Modelled from the spec: the matching engine behind [internal/native] is
    not available.  A literal scalar of a content tree. *)
Inductive Scalar : Type :=
| Null
| Boolean (b : bool)
| Number (z : Z)
| Text (s : string).

(** Modelled from the spec: the matching engine is not available.  The rule
    carried by an annotated node: equality, regex, type, format, the bounds
    of an array, or a rule kind of the matcher DSL that the engine does not
    recognise. *)
Inductive MatchingRule : Type :=
| Equality
| Regex (pattern : string)
| TypeRule
| Format (spec : string)
| ArrayBounds (min max : option nat)
| Unrecognised (kind : string).

(** Modelled from the spec: the matching engine is not available.  A content
    tree: a literal scalar, an ordered sequence, a mapping from string keys
    (insertion order irrelevant), or a value annotated with one matching rule
    and an optional generator hint.  An annotated node without an example
    carries the literal [Null]. *)
Inductive MatcherNode : Type :=
| Literal (s : Scalar)
| Sequence (elems : list MatcherNode)
| Mapping (fields : gmap string MatcherNode)
| Annotated (value : MatcherNode) (rule : MatchingRule) (generator : option string).

Global Instance Scalar_eq_dec : EqDecision Scalar.
Proof. solve_decision. Defined.

Global Instance MatchingRule_eq_dec : EqDecision MatchingRule.
Proof. solve_decision. Defined.

(** A tree is plain when no node of it carries a matching rule. *)
Fixpoint is_plain (n : MatcherNode) : bool :=
  match n with
  | Literal _ => true
  | Sequence elems => forallb is_plain elems
  | Mapping fields => map_fold (λ _ v acc, is_plain v && acc) true fields
  | Annotated _ _ _ => false
  end.

(** Structural equality of trees; mappings are compared key by key. *)
Fixpoint node_eqb (a b : MatcherNode) {struct a} : bool :=
  match a, b with
  | Literal x, Literal y => bool_decide (x = y)
  | Sequence l, Sequence l' =>
      (fix go (l l' : list MatcherNode) {struct l} : bool :=
         match l, l' with
         | [], [] => true
         | x :: l, y :: l' => node_eqb x y && go l l'
         | _, _ => false
         end) l l'
  | Mapping m, Mapping m' =>
      bool_decide (dom m = dom m')
      && map_fold (λ k x acc,
                     match m' !! k with
                     | Some y => node_eqb x y
                     | None => false
                     end && acc) true m
  | Annotated v r g, Annotated v' r' g' =>
      node_eqb v v' && bool_decide (r = r') && bool_decide (g = g')
  | _, _ => false
  end.

Fixpoint node_size (n : MatcherNode) : nat :=
  match n with
  | Literal _ => 1
  | Sequence elems => S (foldr (λ v acc, node_size v + acc) 0 elems)
  | Mapping fields => S (map_fold (λ _ v acc, node_size v + acc) 0 fields)
  | Annotated v _ _ => S (node_size v)
  end.

Lemma node_size_elem (elems : list MatcherNode) (v : MatcherNode) :
  v ∈ elems → node_size v ≤ foldr (λ v acc, node_size v + acc) 0 elems.
Proof. induction 1; simpl; lia. Qed.

Lemma node_size_field (fields : gmap string MatcherNode) k v :
  fields !! k = Some v →
  node_size v ≤ map_fold (λ _ v acc, node_size v + acc) 0 fields.
Proof.
  revert k v.
  induction fields as [|i x m Hi Hfirst IH] using map_first_key_ind; intros k v Hk.
  - by rewrite lookup_empty in Hk.
  - rewrite map_fold_insert_first_key by done.
    destruct (decide (i = k)) as [->|Hne].
    + rewrite lookup_insert_eq in Hk. injection Hk as ->. lia.
    + rewrite lookup_insert_ne in Hk by done. specialize (IH _ _ Hk). lia.
Qed.

(** Induction over content trees, with the hypothesis available for every
    element of a sequence and every field of a mapping. *)
Lemma MatcherNode_nested_ind (P : MatcherNode → Prop) :
  (∀ s, P (Literal s)) →
  (∀ elems, Forall P elems → P (Sequence elems)) →
  (∀ fields, map_Forall (λ _, P) fields → P (Mapping fields)) →
  (∀ v rule g, P v → P (Annotated v rule g)) →
  ∀ n, P n.
Proof.
  intros HL HS HM HA n.
  remember (node_size n) as k eqn:Hk. revert n Hk.
  induction k as [k IH] using lt_wf_ind. intros n ->.
  destruct n as [s|elems|fields|v rule g]; auto.
  - apply HS, Forall_forall. intros v Hv.
    apply (IH (node_size v)); [|done].
    simpl. pose proof (node_size_elem _ _ Hv). lia.
  - apply HM. intros i v Hv.
    apply (IH (node_size v)); [|done].
    simpl. pose proof (node_size_field _ _ _ Hv). lia.
  - apply HA. apply (IH (node_size v)); [simpl; lia|done].
Qed.

(** A fold that answers [true] was [true] at every entry. *)
Lemma map_fold_andb_true {A} (f : string → A → bool) (m : gmap string A) :
  map_fold (λ k x acc, f k x && acc) true m = true ↔
  map_Forall (λ k x, f k x = true) m.
Proof.
  induction m as [|i x m Hi Hfirst IH] using map_first_key_ind.
  - rewrite map_fold_empty. split; [intros _; apply map_Forall_empty|done].
  - rewrite map_fold_insert_first_key by done.
    rewrite andb_true_iff, IH, map_Forall_insert by done. tauto.
Qed.

Lemma node_eqb_eq (a b : MatcherNode) : node_eqb a b = true ↔ a = b.
Proof.
  revert b.
  induction a as [x|l IHl|m IHm|v r g IHv] using MatcherNode_nested_ind; intros b.
  - destruct b; simpl; try (split; [discriminate|discriminate]).
    rewrite bool_decide_eq_true. split; congruence.
  - destruct b as [|l'| |]; simpl; try (split; [discriminate|discriminate]).
    transitivity (l = l'); [|split; congruence].
    revert l'. induction IHl as [|x l Hx Hl IH]; intros [|y l'];
      try (split; [discriminate|discriminate]); [done|].
    rewrite andb_true_iff, Hx, IH. split; [intros [-> ->]; done|].
    intros [= -> ->]. done.
  - destruct b as [| |m'|]; simpl; try (split; [discriminate|discriminate]).
    transitivity (m = m'); [|split; congruence].
    rewrite andb_true_iff, bool_decide_eq_true.
    pose proof (map_fold_andb_true
      (λ k x, match m' !! k with Some y => node_eqb x y | None => false end) m) as Hf.
    simpl in Hf. rewrite Hf. clear Hf.
    split.
    + intros [Hdom Hall]. apply map_eq. intros k.
      destruct (m !! k) as [x|] eqn:Hx.
      * specialize (Hall k x Hx). simpl in Hall.
        destruct (m' !! k) as [y|]; [|discriminate].
        f_equal. by apply (IHm k x Hx).
      * symmetry. apply not_elem_of_dom. rewrite <- Hdom. by apply not_elem_of_dom.
    + intros <-. split; [done|]. intros k x Hx. simpl. rewrite Hx.
      by apply (IHm k x Hx).
  - destruct b as [| | |v' r' g']; simpl; try (split; [discriminate|discriminate]).
    rewrite !andb_true_iff, !bool_decide_eq_true, IHv. split.
    + intros [[-> ->] ->]. done.
    + intros [= -> -> ->]. done.
Qed.

Global Instance MatcherNode_eq_dec : EqDecision MatcherNode.
Proof.
  intros a b. destruct (node_eqb a b) eqn:E.
  - left. by apply node_eqb_eq.
  - right. intros H. apply node_eqb_eq in H. congruence.
Defined.

(** ** Reification *)

(** Modelled from the spec: the matching engine is not available.  The
    canonical instance computed for a format rule that carries no example;
    a format that has none is not a rule the engine can resolve. *)
Definition canonical_instance (spec : string) : option Scalar :=
  if decide (spec = "date") then Some (Text "2000-01-01")
  else if decide (spec = "time") then Some (Text "00:00:00")
  else if decide (spec = "date-time") then Some (Text "2000-01-01T00:00:00Z")
  else if decide (spec = "uuid") then Some (Text "00000000-0000-0000-0000-000000000000")
  else if decide (spec = "integer") then Some (Number 0)
  else if decide (spec = "boolean") then Some (Boolean false)
  else None.

(** Modelled from the spec: the matching engine is not available.  The
    sequence generated for an array rule with a minimum: the minimum count of
    elements, taken from the examples in order and over again. *)
Definition minimum_count (min : nat) (examples : list MatcherNode) : list MatcherNode :=
  take min (mjoin (replicate min examples)).

(** all entries of a mapping of optional values, when none is missing *)
Definition map_sequence {A} (m : gmap string (option A)) : option (gmap string A) :=
  if decide (map_Forall (λ _ o, is_Some o) m) then Some (omap id m) else None.

(** Modelled from the spec: the matching engine is not available.
    Reification by recursive descent: a literal is itself; the elements of a
    sequence and the values of a mapping are reified in place; an annotated
    node is resolved by its rule: equality, type and regex to the embedded
    example, a format to the example or else to the canonical instance, array
    bounds to the minimum count when there is one and to the example count
    otherwise.  [None] is the failure [UnsupportedMatcherKind]. *)
Fixpoint reify_node (n : MatcherNode) : option MatcherNode :=
  match n with
  | Literal s => Some (Literal s)
  | Sequence elems => Sequence <$> mapM reify_node elems
  | Mapping fields => Mapping <$> map_sequence (reify_node <$> fields)
  | Annotated value rule _ =>
      match rule with
      | Equality | TypeRule | Regex _ => reify_node value
      | Format spec =>
          match value with
          | Literal Null => Literal <$> canonical_instance spec
          | _ => reify_node value
          end
      | ArrayBounds min _ =>
          match reify_node value, min with
          | Some (Sequence examples), Some k => Some (Sequence (minimum_count k examples))
          | r, _ => r
          end
      | Unrecognised _ => None
      end
  end.

Inductive reify_error : Type :=
| UnsupportedMatcherKind.

Definition reify (n : MatcherNode) : MatcherNode + reify_error :=
  match reify_node n with
  | Some v => inl v
  | None => inr UnsupportedMatcherKind
  end.

(** ** Interactions and contracts *)

(** Modelled from the spec: the engine's interaction model is not available.
    A precondition of the provider: a name and parameters. *)
Record ProviderState : Type := mkProviderState {
  state_name : string;
  state_params : gmap string MatcherNode;
}.

(** Modelled from the spec: the engine's interaction model is not available.
    The content of an interaction: a content tree, or raw bytes with a
    content type. *)
Inductive MessageContent : Type :=
| Structured (n : MatcherNode)
| Raw (contentType : string) (bytes : string).

(** Modelled from the spec: the engine's interaction model is not available.
    One message interaction, in matcher form. *)
Record MessageInteraction : Type := mkMessageInteraction {
  description : string;
  providerStates : list ProviderState;
  content : MessageContent;
  metadata : gmap string string;
}.

(** Modelled from the spec: the contract store is not available.  The pact
    file of a consumer/provider pair. *)
Record Contract : Type := mkContract {
  consumer : string;
  provider : string;
  interactions : list MessageInteraction;
  version : string;
}.

Global Instance ProviderState_eq_dec : EqDecision ProviderState.
Proof. solve_decision. Defined.

Global Instance MessageContent_eq_dec : EqDecision MessageContent.
Proof. solve_decision. Defined.

Global Instance MessageInteraction_eq_dec : EqDecision MessageInteraction.
Proof. solve_decision. Defined.

(** the interaction a builder starts from *)
Definition empty_interaction : MessageInteraction :=
  {| description := ""; providerStates := [];
     content := Structured (Literal Null); metadata := ∅ |}.

(** Modelled from the spec: the contract store is not available.  Merging
    new interactions into existing ones: an interaction that is already
    present (structural equality of the whole record) is dropped, the others
    are appended in order; the existing ones stay as they are. *)
Definition merge_interactions (existing new : list MessageInteraction)
  : list MessageInteraction :=
  foldl (λ acc i, if decide (i ∈ acc) then acc else acc ++ [i]) existing new.


(** Modelled from the spec: the contract store is not available.  The path of
    the pact file of a pair: a fixed naming convention under the pact
    directory. *)
Definition pact_file_path (dir consumer provider : string) : string :=
  dir +:+ "/" +:+ consumer +:+ "-" +:+ provider +:+ ".json".

(** the marker of the contract format written by this package *)
Definition format_version : string := "3.0.0".

(** ** A reference runtime

    One [GoRuntime], over JSON texts with integer numbers: enough of
    [encoding/json] to run the source on concrete messages.  Where it
    cannot follow the Go decoder it refuses the text: a number with a
    fraction or an exponent, and a unicode escape above the ASCII range,
    are outside its syntax.  An integer is kept exactly, where Go rounds it
    to a [float64]. *)

Module reference.

Definition quote_char : ascii := "034"%char.
Definition backslash : ascii := "092"%char.

Definition hex_char (k : nat) : ascii :=
  ascii_of_nat (if k <? 10 then 48 + k else 87 + k).

(** the quote, the backslash and the control characters are escaped *)
Fixpoint escape (s : string) : string :=
  match s with
  | EmptyString => EmptyString
  | String a s' =>
      if decide (a = quote_char) then String backslash (String quote_char (escape s'))
      else if decide (a = backslash) then String backslash (String backslash (escape s'))
      else if nat_of_ascii a <? 32 then
        String backslash
          (String "u" (String "0" (String "0"
             (String (hex_char (nat_of_ascii a / 16))
                (String (hex_char (nat_of_ascii a mod 16)) (escape s'))))))
      else String a (escape s')
  end.

Definition quote (s : string) : string :=
  String quote_char (escape s +:+ String quote_char EmptyString).

Definition print_Z (z : Z) : string := NilZero.string_of_int (Z.to_int z).

Definition print_Scalar (s : Scalar) : string :=
  match s with
  | Null => "null"
  | Boolean true => "true"
  | Boolean false => "false"
  | Number z => print_Z z
  | Text s => quote s
  end.

(** The JSON text of a plain tree, the members of an object in the order
    of the mapping.  (An annotated node prints as its example; texts are
    only made of plain trees.) *)
Fixpoint print (n : MatcherNode) : string :=
  match n with
  | Literal s => print_Scalar s
  | Sequence elems => "[" +:+ String.concat "," (print <$> elems) +:+ "]"
  | Mapping fields =>
      "{" +:+ String.concat ","
                (map_fold (λ k v acc, (quote k +:+ ":" +:+ print v) :: acc) [] fields)
          +:+ "}"
  | Annotated v _ _ => print v
  end.

Definition is_space (a : ascii) : bool :=
  bool_decide (a = " "%char) || bool_decide (a = "009"%char)
  || bool_decide (a = "010"%char) || bool_decide (a = "013"%char).

Fixpoint skip_space (s : string) : string :=
  match s with
  | String a s' => if is_space a then skip_space s' else s
  | EmptyString => s
  end.

Fixpoint strip_prefix (prefix s : string) : option string :=
  match prefix, s with
  | EmptyString, _ => Some s
  | String a prefix', String b s' =>
      if decide (a = b) then strip_prefix prefix' s' else None
  | String _ _, EmptyString => None
  end.

Definition digit (a : ascii) : option Z :=
  let k := nat_of_ascii a in
  if (48 <=? k) && (k <=? 57) then Some (Z.of_nat (k - 48)) else None.

Fixpoint parse_digits (s : string) (acc : Z) : Z * string :=
  match s with
  | String a s' =>
      match digit a with
      | Some d => parse_digits s' (10 * acc + d)%Z
      | None => (acc, s)
      end
  | EmptyString => (acc, s)
  end.

(** the least magnitude that no longer rounds to a finite [float64] *)
Definition float64_overflow : Z := (2 ^ 1024 - 2 ^ 970)%Z.

(** an integer, without leading zero and within the range of [float64]; a
    fraction or an exponent is outside this syntax *)
Definition parse_number (s : string) : option (Z * string) :=
  let '(negative, s) :=
    match strip_prefix "-" s with
    | Some s' => (true, s')
    | None => (false, s)
    end in
  match s with
  | String a s' =>
      match digit a with
      | Some d =>
          let '(z, rest) :=
            if decide (d = 0%Z) then (0%Z, s') else parse_digits s 0%Z in
          match rest with
          | String c _ =>
              if bool_decide (c = "."%char) || bool_decide (c = "e"%char)
                 || bool_decide (c = "E"%char) || bool_decide (is_Some (digit c))
              then None
              else if decide (float64_overflow ≤ z)%Z then None
              else Some (if negative then (- z)%Z else z, rest)
          | EmptyString =>
              if decide (float64_overflow ≤ z)%Z then None
              else Some (if negative then (- z)%Z else z, rest)
          end
      | None => None
      end
  | EmptyString => None
  end.

Definition unescape (a : ascii) : option ascii :=
  if decide (a = quote_char) then Some quote_char
  else if decide (a = backslash) then Some backslash
  else if decide (a = "/"%char) then Some "/"%char
  else if decide (a = "b"%char) then Some "008"%char
  else if decide (a = "f"%char) then Some "012"%char
  else if decide (a = "n"%char) then Some "010"%char
  else if decide (a = "r"%char) then Some "013"%char
  else if decide (a = "t"%char) then Some "009"%char
  else None.

Definition hex_digit (a : ascii) : option nat :=
  let k := nat_of_ascii a in
  if (48 <=? k) && (k <=? 57) then Some (k - 48)
  else if (65 <=? k) && (k <=? 70) then Some (k - 55)
  else if (97 <=? k) && (k <=? 102) then Some (k - 87)
  else None.

(** the character of a unicode escape with four hexadecimal digits, when it
    is an ASCII character *)
Definition unicode_escape (a b c d : ascii) : option ascii :=
  match hex_digit a, hex_digit b, hex_digit c, hex_digit d with
  | Some x3, Some x2, Some x1, Some x0 =>
      let code := ((x3 * 16 + x2) * 16 + x1) * 16 + x0 in
      if code <? 128 then Some (ascii_of_nat code) else None
  | _, _, _, _ => None
  end.

(** the characters of a string, after its opening quote; a control
    character must be escaped *)
Fixpoint parse_chars (s : string) : option (string * string) :=
  match s with
  | EmptyString => None
  | String a s' =>
      if decide (a = quote_char) then Some (EmptyString, s')
      else if decide (a = backslash) then
        match s' with
        | String b after =>
            if decide (b = "u"%char) then
              match after with
              | String h3 (String h2 (String h1 (String h0 more))) =>
                  match unicode_escape h3 h2 h1 h0, parse_chars more with
                  | Some c, Some (str, rest) => Some (String c str, rest)
                  | _, _ => None
                  end
              | _ => None
              end
            else
              match unescape b, parse_chars after with
              | Some c, Some (str, rest) => Some (String c str, rest)
              | _, _ => None
              end
        | EmptyString => None
        end
      else if nat_of_ascii a <? 32 then None
      else
        match parse_chars s' with
        | Some (str, rest) => Some (String a str, rest)
        | None => None
        end
  end.

Definition parse_string (s : string) : option (string * string) :=
  match s with
  | String a s' => if decide (a = quote_char) then parse_chars s' else None
  | EmptyString => None
  end.

Fixpoint parse_value (fuel : nat) (s : string) : option (MatcherNode * string) :=
  match fuel with
  | 0 => None
  | S fuel =>
      let s := skip_space s in
      match strip_prefix "null" s, strip_prefix "true" s, strip_prefix "false" s with
      | Some rest, _, _ => Some (Literal Null, rest)
      | _, Some rest, _ => Some (Literal (Boolean true), rest)
      | _, _, Some rest => Some (Literal (Boolean false), rest)
      | None, None, None =>
          match strip_prefix "[" s, strip_prefix "{" s with
          | Some rest, _ =>
              match strip_prefix "]" (skip_space rest) with
              | Some rest' => Some (Sequence [], rest')
              | None =>
                  match parse_elems fuel rest with
                  | Some (elems, rest') => Some (Sequence elems, rest')
                  | None => None
                  end
              end
          | _, Some rest =>
              match strip_prefix "}" (skip_space rest) with
              | Some rest' => Some (Mapping ∅, rest')
              | None =>
                  match parse_members fuel rest with
                  | Some (fields, rest') => Some (Mapping fields, rest')
                  | None => None
                  end
              end
          | None, None =>
              match parse_string s with
              | Some (str, rest) => Some (Literal (Text str), rest)
              | None =>
                  match parse_number s with
                  | Some (z, rest) => Some (Literal (Number z), rest)
                  | None => None
                  end
              end
          end
      end
  end
with parse_elems (fuel : nat) (s : string) : option (list MatcherNode * string) :=
  match fuel with
  | 0 => None
  | S fuel =>
      match parse_value fuel s with
      | Some (v, rest) =>
          let rest := skip_space rest in
          match strip_prefix "," rest, strip_prefix "]" rest with
          | Some rest', _ =>
              match parse_elems fuel rest' with
              | Some (vs, rest'') => Some (v :: vs, rest'')
              | None => None
              end
          | _, Some rest' => Some ([v], rest')
          | None, None => None
          end
      | None => None
      end
  end
with parse_members (fuel : nat) (s : string)
  : option (gmap string MatcherNode * string) :=
  match fuel with
  | 0 => None
  | S fuel =>
      match parse_string (skip_space s) with
      | Some (key, rest) =>
          match strip_prefix ":" (skip_space rest) with
          | Some rest =>
              match parse_value fuel rest with
              | Some (v, rest) =>
                  let rest := skip_space rest in
                  match strip_prefix "," rest, strip_prefix "}" rest with
                  | Some rest', _ =>
                      match parse_members fuel rest' with
                      | Some (fields, rest'') =>
                          (* of two members with one key the later one is kept *)
                          Some (match fields !! key with
                                | Some _ => fields
                                | None => <[key := v]> fields
                                end, rest'')
                      | None => None
                      end
                  | _, Some rest' => Some ({[key := v]}, rest')
                  | None, None => None
                  end
              | None => None
              end
          | None => None
          end
      | None => None
      end
  end.

(** the value of a JSON text *)
Definition parse (s : string) : option MatcherNode :=
  match parse_value (2 * String.length s + 2) s with
  | Some (v, rest) =>
      match skip_space rest with
      | EmptyString => Some v
      | String _ _ => None
      end
  | None => None
  end.

End reference.

Module Import reference_runtime.
Import reference.

(** the shape of a Go type that a JSON value is decoded into *)
Inductive shape : Type :=
| AnyShape
| BoolShape
| NumberShape
| StringShape
| SliceShape (elem : shape)
| StructShape (name : string) (fields : list (string * shape)).

(** A value of [interface{}]: a value of the kinds the JSON decoder stores
    in an interface (with the wrappers of the matcher DSL), or a pointer to
    a value of a given shape. *)
Inductive value : Type :=
| Generic (n : MatcherNode)
| PointerTo (t : shape) (n : MatcherNode).

Definition kind_of (n : MatcherNode) : string :=
  match n with
  | Literal Null => "null"
  | Literal (Boolean _) => "bool"
  | Literal (Number _) => "number"
  | Literal (Text _) => "string"
  | Sequence _ => "array"
  | Mapping _ => "object"
  | Annotated _ _ _ => "matcher"
  end.

(** [t.String()]; the package of a named struct type is not part of the
    name here *)
Fixpoint shape_name (t : shape) : string :=
  match t with
  | AnyShape => "interface {}"
  | BoolShape => "bool"
  | NumberShape => "float64"
  | StringShape => "string"
  | SliceShape elem => "[]" +:+ shape_name elem
  | StructShape name _ => name
  end.

(** The text of a decode error for a value that does not fit a type.  Inside
    a struct the decoder names the struct and the path of the member. *)
Definition mismatch (context : option (string * list string))
    (n : MatcherNode) (t : shape) : string :=
  match context with
  | Some (struct_name, path) =>
      "json: cannot unmarshal " +:+ kind_of n +:+ " into Go struct field "
      +:+ struct_name +:+ "." +:+ String.concat "." path
      +:+ " of type " +:+ shape_name t
  | None =>
      "json: cannot unmarshal " +:+ kind_of n +:+ " into Go value of type "
      +:+ shape_name t
  end.

(** the zero value of a type *)
Fixpoint zero_of (t : shape) : MatcherNode :=
  match t with
  | AnyShape | SliceShape _ => Literal Null
  | BoolShape => Literal (Boolean false)
  | NumberShape => Literal (Number 0)
  | StringShape => Literal (Text "")
  | StructShape _ fields =>
      Mapping
        ((fix zeros (fields : list (string * shape)) : gmap string MatcherNode :=
            match fields with
            | [] => ∅
            | (key, ft) :: fields => <[key := zero_of ft]> (zeros fields)
            end) fields)
  end.

Definition lower (a : ascii) : ascii :=
  let k := nat_of_ascii a in
  if (65 <=? k) && (k <=? 90) then ascii_of_nat (k + 32) else a.

Fixpoint fold_case (s : string) : string :=
  match s with
  | EmptyString => EmptyString
  | String a s' => String (lower a) (fold_case s')
  end.

(** the member of an object for a field of a struct: the member of that
    name, or else one whose name differs in case only *)
Definition member (members : gmap string MatcherNode) (key : string)
  : option MatcherNode :=
  match members !! key with
  | Some v => Some v
  | None =>
      snd <$> head (filter (λ kv, fold_case kv.1 = fold_case key)
                           (map_to_list members))
  end.

(** The structural decode of a JSON value into a variable of a given type
    that holds [old]: what the variable holds afterwards, and the text of
    the first decode error.  The decoder goes on after an error: a value
    that does not fit is skipped and leaves its variable as it was; a member
    that the struct does not declare is ignored, a field without member keeps
    its value; a null leaves a scalar or a struct as it was.  (Fields are
    visited in the order of their declaration.) *)
Fixpoint decode (t : shape) (context : option (string * list string))
    (old n : MatcherNode) {struct t} : MatcherNode * option string :=
  match t with
  | AnyShape => (n, None)
  | BoolShape =>
      match n with
      | Literal Null => (old, None)
      | Literal (Boolean _) => (n, None)
      | _ => (old, Some (mismatch context n t))
      end
  | NumberShape =>
      match n with
      | Literal Null => (old, None)
      | Literal (Number _) => (n, None)
      | _ => (old, Some (mismatch context n t))
      end
  | StringShape =>
      match n with
      | Literal Null => (old, None)
      | Literal (Text _) => (n, None)
      | _ => (old, Some (mismatch context n t))
      end
  | SliceShape elem =>
      match n with
      | Literal Null => (Literal Null, None)
      | Sequence elems =>
          let decoded := (λ v, decode elem context (zero_of elem) v) <$> elems in
          (Sequence (fst <$> decoded),
           head (omap snd decoded))
      | _ => (old, Some (mismatch context n t))
      end
  | StructShape name fields =>
      match n with
      | Literal Null => (old, None)
      | Mapping members =>
          let olds := match old with Mapping olds => olds | _ => ∅ end in
          let path := match context with Some (_, path) => path | None => [] end in
          let '(news, err) :=
            (fix each (fields : list (string * shape))
               : gmap string MatcherNode * option string :=
               match fields with
               | [] => (∅, None)
               | (key, ft) :: fields =>
                   let old_field := default (zero_of ft) (olds !! key) in
                   let '(v, e) :=
                     match member members key with
                     | Some x => decode ft (Some (name, path ++ [key])) old_field x
                     | None => (old_field, None)
                     end in
                   let '(rest, e') := each fields in
                   (<[key := v]> rest, match e with Some _ => e | None => e' end)
               end) fields in
          (Mapping news, err)
      | _ => (old, Some (mismatch context n t))
      end
  end.

Definition TypeOf (v : value) : option string :=
  match v with
  | Generic (Literal Null) => None
  | Generic (Literal (Boolean _)) => Some "bool"
  | Generic (Literal (Number _)) => Some "float64"
  | Generic (Literal (Text _)) => Some "string"
  | Generic (Sequence _) | Generic (Mapping _) => Some ""
  | Generic (Annotated _ _ _) => Some "Matcher"
  | PointerTo _ _ => Some ""
  end.

Definition Marshal (v : value) : string + error :=
  match v with
  | Generic n =>
      if is_plain n then inl (print n)
      else inr (errorString "json: unsupported value")
  | PointerTo _ n => inl (print n)
  end.

Definition syntax_error : error :=
  errorString "json: invalid character in the input".

(** Decoding into an interface that holds a pointer decodes into what it
    points to, except that a null makes the interface nil; decoding into
    any other interface value replaces it with the generic value. *)
Definition Unmarshal (s : string) (x : value) : value * option error :=
  match parse s with
  | None => (x, Some syntax_error)
  | Some n =>
      match x, n with
      | PointerTo _ _, Literal Null => (Generic (Literal Null), None)
      | PointerTo t old, _ =>
          let '(new, err) := decode t None old n in
          (PointerTo t new, errorString <$> err)
      | Generic _, _ => (Generic n, None)
      end
  end.

Definition text_of (n : MatcherNode) : option string :=
  match n with
  | Literal (Text s) => Some s
  | _ => None
  end.

(** Decoding into the message struct: an object with the members
    [contents], [description] and [metadata], each of which may be missing
    or null; a null for the whole leaves the zero message. *)
Definition Unmarshal_AsynchronousMessage (s : string)
  : AsynchronousMessage value + error :=
  match parse s with
  | Some (Literal Null) =>
      inl {| Content := Generic (Literal Null); Description := ""; Metadata := ∅ |}
  | Some (Mapping members) =>
      let contents := default (Literal Null) (member members "contents") in
      let description :=
        match member members "description" with
        | Some (Literal Null) | None => inl ""
        | Some (Literal (Text d)) => inl d
        | Some n =>
            inr (mismatch (Some ("AsynchronousMessage", ["description"])) n StringShape)
        end in
      let metadata :=
        match member members "metadata" with
        | Some (Literal Null) | None => Some ∅
        | Some (Mapping entries) => map_sequence (text_of <$> entries)
        | Some _ => None
        end in
      match description, metadata with
      | inl d, Some md =>
          inl {| Content := Generic contents; Description := d; Metadata := md |}
      | inr msg, _ => inr (errorString msg)
      | inl _, None =>
          inr (errorString
                 "json: cannot unmarshal into Go struct field AsynchronousMessage.metadata")
      end
  | Some n =>
      inr (errorString
             (mismatch None n (StructShape "v3.AsynchronousMessage" [])))
  | None => inr syntax_error
  end.

(** the elements of a path between its separators *)
Fixpoint components (s : string) : list string :=
  match s with
  | EmptyString => [EmptyString]
  | String a s' =>
      if decide (a = "/"%char) then EmptyString :: components s'
      else match components s' with
           | c :: cs => String a c :: cs
           | [] => [String a EmptyString]
           end
  end.

(** [filepath.Clean], on paths with the separator [/]: no empty element, no
    [.] element, no inner [..] element with the element before it, no [..]
    at the root; the empty path is [.]. *)
Definition Clean (path : string) : string :=
  let rooted := bool_decide (strip_prefix "/" path ≠ None) in
  let kept :=
    foldl (λ stack c,
             if decide (c = "" ∨ c = ".") then stack
             else if decide (c = "..") then
               match stack with
               | top :: below => if decide (top = "..") then c :: stack else below
               | [] => if rooted then [] else [c]
               end
             else c :: stack) [] (components path) in
  let cleaned := (if rooted then "/" else "") +:+ String.concat "/" (reverse kept) in
  if decide (cleaned = "") then "." else cleaned.

(** [filepath.Join]: the elements that are not empty, joined and cleaned;
    the empty path when there is none *)
Definition Join (elems : list string) : string :=
  match filter (λ e, e ≠ "") elems with
  | [] => ""
  | elems => Clean (String.concat "/" elems)
  end.

Global Instance runtime : GoRuntime := {|
  any := value;
  nil := Generic (Literal Null);
  rtype := string;
  reflect_TypeOf := TypeOf;
  rtype_Name := id;
  json_Marshal := Marshal;
  json_Unmarshal := Unmarshal;
  json_Unmarshal_AsynchronousMessage := Unmarshal_AsynchronousMessage;
  fmt_plus_v := λ v, match v with
                     | Generic n => print n
                     | PointerTo _ n => "&" +:+ print n
                     end;
  os_Getwd := ("/work", None);
  filepath_Join := Join;
|}.

Definition to_node (v : value) : MatcherNode :=
  match v with
  | Generic n | PointerTo _ n => n
  end.

End reference_runtime.

(** ** The engine of the specification

    One [native.Engine]: the interaction builder, the reification engine and
    the contract store as the specification describes them, behind the
    operations that the source calls. *)

Module engine.

(** a message server: the pair it speaks for and the interactions built on
    it, in the order of their creation *)
Record MessageServerState : Type := mkMessageServerState {
  server_consumer : string;
  server_provider : string;
  server_messages : list MessageInteraction;
}.

(** the state of the engine and of the disk: pact files by path, and the
    directories that cannot be written to *)
Record State : Type := mkState {
  initialised : bool;
  servers : list MessageServerState;
  disk : gmap string Contract;
  unwritable : gset string;
}.

Definition set_servers (e : State) (l : list MessageServerState) : State :=
  {| initialised := initialised e; servers := l; disk := disk e;
     unwritable := unwritable e |}.

Definition set_disk (e : State) (d : gmap string Contract) : State :=
  {| initialised := initialised e; servers := servers e; disk := d;
     unwritable := unwritable e |}.

Definition set_messages (st : MessageServerState) (l : list MessageInteraction)
  : MessageServerState :=
  {| server_consumer := server_consumer st; server_provider := server_provider st;
     server_messages := l |}.

(** a message handle: its server and its position there *)
Definition Handle : Type := nat * nat.

Definition lookup_message (h : Handle) (e : State) : option MessageInteraction :=
  st ← servers e !! h.1; server_messages st !! h.2.

Definition update_message (h : Handle)
    (f : MessageInteraction → MessageInteraction) (e : State) : State :=
  set_servers e
    (alter (λ st, set_messages st (alter f h.2 (server_messages st))) h.1 (servers e)).

(** Modelled from the spec: [native.Init] is not available.  Set-up of the
    engine, safe to repeat. *)
Definition Init (e : State) : State :=
  {| initialised := true; servers := servers e; disk := disk e;
     unwritable := unwritable e |}.

(** Modelled from the spec: [NewMessageServer] is not available.  A new
    session for a consumer/provider pair, with no interaction yet. *)
Definition NewMessageServer (consumer provider : string) (e : State) : nat * State :=
  (length (servers e),
   set_servers e (servers e ++ [ {| server_consumer := consumer;
                                    server_provider := provider;
                                    server_messages := [] |} ])).

(** Modelled from the spec: [NewMessage] is not available.  The builder
    creates an empty interaction. *)
Definition NewMessage (s : nat) (e : State) : Handle * State :=
  match servers e !! s with
  | Some st =>
      ((s, length (server_messages st)),
       set_servers e
         (<[s := set_messages st (server_messages st ++ [empty_interaction])]>
            (servers e)))
  | None => ((s, 0), e)
  end.

(** Modelled from the spec: [GivenWithParameter] is not available.
    [withProviderState] appends a provider state. *)
Definition GivenWithParameter (h : Handle) (name : string)
    (params : gmap string value) (e : State) : State :=
  update_message h
    (λ i, {| description := description i;
             providerStates :=
               providerStates i ++ [ {| state_name := name;
                                        state_params := to_node <$> params |} ];
             content := content i; metadata := metadata i |}) e.

(** Modelled from the spec: [ExpectsToReceive] is not available.
    [expectsToReceive] sets or overwrites the description. *)
Definition ExpectsToReceive (h : Handle) (d : string) (e : State) : State :=
  update_message h
    (λ i, {| description := d; providerStates := providerStates i;
             content := content i; metadata := metadata i |}) e.

(** Modelled from the spec: [WithMetadata] is not available.
    [withMetadata] replaces the metadata map wholesale. *)
Definition WithMetadata (h : Handle) (md : gmap string string) (e : State) : State :=
  update_message h
    (λ i, {| description := description i; providerStates := providerStates i;
             content := content i; metadata := md |}) e.

(** Modelled from the spec: [WithContents] is not available.  [withContent]
    sets the content to raw bytes with a content type; the last call wins. *)
Definition WithContents (h : Handle) (contentType body : string) (e : State) : State :=
  update_message h
    (λ i, {| description := description i; providerStates := providerStates i;
             content := Raw contentType body; metadata := metadata i |}) e.

(** Modelled from the spec: [WithJSONContents] is not available.
    [withJSONContent] takes a structured value as a content tree. *)
Definition WithJSONContents (h : Handle) (v : value) (e : State) : State :=
  update_message h
    (λ i, {| description := description i; providerStates := providerStates i;
             content := Structured (to_node v); metadata := metadata i |}) e.

(** Modelled from the spec: the reification engine is not available.  The
    reified message of an interaction, as a document: its description, its
    concrete content and its metadata.  Raw bytes are their own example. *)
Definition reify_interaction (i : MessageInteraction) : option MatcherNode :=
  c ← match content i with
      | Structured n => reify_node n
      | Raw _ bytes => Some (Literal (Text bytes))
      end;
  Some (Mapping {[ "contents" := c;
                   "description" := Literal (Text (description i));
                   "metadata" := Mapping ((λ s, Literal (Text s)) <$> metadata i) ]}).

(** Modelled from the spec: [ReifyMessage] is not available.  The JSON text
    of the reified message.  The operation has no error result: when
    reification fails, and for a handle that denotes no message, the text
    is empty. *)
Definition ReifyMessage (h : Handle) (e : State) : string :=
  match lookup_message h e ≫= reify_interaction with
  | Some doc => reference.print doc
  | None => ""
  end.

(** Modelled from the spec: [WritePactFile] is not available.  The contract
    of the server's pair is written to its path under [dir]: the
    interactions already in the file (none when there is no file, or with
    [overwrite]) merged with the interactions of the server.  The write
    fails with an IO error when the directory cannot be written to.

    The specification has the orchestrator append an interaction to the
    contract when its handler succeeds.  The source makes no such call, and
    this operation is given no message: the contract that it writes can only
    be what the builder calls have put on the server, so every interaction
    built on the server is written, accepted or not. *)
Definition WritePactFile (s : nat) (dir : string) (overwrite : bool) (e : State)
  : option error * State :=
  match servers e !! s with
  | None => (Some (errorString "IOError: no such message server"), e)
  | Some st =>
      if decide (dir ∈ unwritable e)
      then (Some (errorString ("IOError: cannot write to " +:+ dir)), e)
      else
        let path := pact_file_path dir (server_consumer st) (server_provider st) in
        let existing :=
          if overwrite then []
          else match disk e !! path with
               | Some c => interactions c
               | None => []
               end in
        (None,
         set_disk e
           (<[path := {| consumer := server_consumer st;
                         provider := server_provider st;
                         interactions :=
                           merge_interactions existing (server_messages st);
                         version := format_version |}]> (disk e)))
  end.

Global Instance specified : native.Engine := {|
  native.state := State;
  native.MessageServer := nat;
  native.Message := Handle;
  native.Init := Init;
  native.NewMessageServer := NewMessageServer;
  native.NewMessage := NewMessage;
  native.WritePactFile := WritePactFile;
  native.GivenWithParameter := GivenWithParameter;
  native.ExpectsToReceive := ExpectsToReceive;
  native.WithMetadata := WithMetadata;
  native.WithContents := WithContents;
  native.WithJSONContents := WithJSONContents;
  native.ReifyMessage := ReifyMessage;
|}.

(** a machine that has run nothing yet, with an empty disk *)
Definition fresh : State :=
  {| initialised := false; servers := []; disk := ∅; unwritable := ∅ |}.

End engine.

(** ** A session to run the source on *)

Module example.

(** an order event: an identifier and an amount, both matched by type *)
Definition order : value :=
  Generic (Mapping
    {[ "orderId" := Annotated (Literal (Text "abc123")) TypeRule None;
       "amount" := Annotated (Literal (Number 42)) TypeRule None ]}).

Definition reified_order : value :=
  Generic (Mapping {[ "orderId" := Literal (Text "abc123");
                      "amount" := Literal (Number 42) ]}).

Definition shop : Config :=
  {| Consumer := "shop"; Provider := "orders"; PactDir := "" |}.

Definition pact : Pact :=
  {| config := {| Consumer := "shop"; Provider := "orders";
                  PactDir := "/work/pacts" |};
     messageserver := Some 0 |}.

Definition message : Message :=
  {| messageHandle := (0, 0); messagePactV3 := pact;
     Type_ := nil; handler := None |}.

(** the interaction of [message], with a given description *)
Definition interaction (d : string) : MessageInteraction :=
  {| description := d; providerStates := [];
     content := Structured (to_node order); metadata := ∅ |}.

(** the engine once [message] is built *)
Definition built (d : string) : engine.State :=
  {| engine.initialised := true;
     engine.servers :=
       [ {| engine.server_consumer := "shop"; engine.server_provider := "orders";
            engine.server_messages := [interaction d] |} ];
     engine.disk := ∅;
     engine.unwritable := ∅ |}.

(** what the handler is given *)
Definition delivered (d : string) : AsynchronousMessage value :=
  {| Content := reified_order; Description := d; Metadata := ∅ |}.

Definition path : string := "/work/pacts/shop-orders.json".

Definition described : string := "an order created event".

Definition accept : AsynchronousConsumer := λ _, None.

Definition boom : error := errorString "boom".

Definition reject : AsynchronousConsumer := λ _, Some boom.

(** two target types for the order that are pointers: a struct that it
    fits, and a string, that it does not fit *)
Definition Order : value :=
  PointerTo (StructShape "Order" [("orderId", StringShape); ("amount", NumberShape)])
            (Literal Null).

Definition Name : value := PointerTo StringShape (Literal (Text "")).


(** the message with a target type *)
Definition typed (t : value) : Message := set_Type message t.

(** the pact file of the pair once the interaction is in it *)
Definition contract (d : string) : Contract :=
  {| consumer := "shop"; provider := "orders";
     interactions := [interaction d]; version := format_version |}.

(** the engine once [message] is verified *)
Definition persisted (d : string) : engine.State :=
  engine.set_disk (built d) {[ path := contract d ]}.

(** a content that the engine cannot reify: its rule is of no known kind *)
Definition unresolvable : value :=
  Generic (Annotated (Literal (Text "1.2.3")) (Unrecognised "semver") None).

(** the engine once [message] is built with that content *)
Definition built_unresolvable : engine.State :=
  engine.WithJSONContents (0, 0) unresolvable (built described).

(** the engine before any message is added to the pact *)
Definition configured : engine.State :=
  {| engine.initialised := true;
     engine.servers :=
       [ {| engine.server_consumer := "shop"; engine.server_provider := "orders";
            engine.server_messages := [] |} ];
     engine.disk := ∅;
     engine.unwritable := ∅ |}.

(** the engine with a pact directory that cannot be written to *)
Definition read_only : engine.State :=
  {| engine.initialised := true;
     engine.servers := engine.servers (built described);
     engine.disk := ∅;
     engine.unwritable := {[ "/work/pacts" ]} |}.

(** another interaction of the pair *)
Definition other : MessageInteraction :=
  {| description := "an order cancelled event"; providerStates := [];
     content := Structured (Literal (Text "cancelled")); metadata := ∅ |}.

Definition contract_of (l : list MessageInteraction) : Contract :=
  {| consumer := "shop"; provider := "orders";
     interactions := l; version := format_version |}.


(** a second pact, for another pair, and a message built on it *)
Definition billing : Pact :=
  {| config := {| Consumer := "web"; Provider := "billing";
                  PactDir := "/work/pacts" |};
     messageserver := Some 1 |}.

Definition foreign : Message :=
  {| messageHandle := (1, 0); messagePactV3 := billing;
     Type_ := nil; handler := None |}.

(** the engine with the two pacts: no message on the first, [foreign] on
    the second *)
Definition two_pacts : engine.State :=
  {| engine.initialised := true;
     engine.servers :=
       [ {| engine.server_consumer := "shop"; engine.server_provider := "orders";
            engine.server_messages := [] |};
         {| engine.server_consumer := "web"; engine.server_provider := "billing";
            engine.server_messages := [interaction described] |} ];
     engine.disk := ∅;
     engine.unwritable := ∅ |}.

(** a second pact for the same pair and directory, and the same
    interaction built on each of the two *)
Definition twin_pact : Pact :=
  {| config := {| Consumer := "shop"; Provider := "orders";
                  PactDir := "/work/pacts" |};
     messageserver := Some 1 |}.

Definition twin_message : Message :=
  {| messageHandle := (1, 0); messagePactV3 := twin_pact;
     Type_ := nil; handler := None |}.

Definition twins : engine.State :=
  {| engine.initialised := true;
     engine.servers :=
       [ {| engine.server_consumer := "shop"; engine.server_provider := "orders";
            engine.server_messages := [interaction described] |};
         {| engine.server_consumer := "shop"; engine.server_provider := "orders";
            engine.server_messages := [interaction described] |} ];
     engine.disk := {[ path := contract_of [other] ]};
     engine.unwritable := ∅ |}.

(** the builds that lead to [two_pacts] and to [twins] without its file *)
Definition build_two (second : Config) (on_first : bool) : Exec (Pact * Pact * Message) :=
  r1 ← NewMessagePact shop;
  p1 ← deref r1.1;
  r2 ← NewMessagePact second;
  p2 ← deref r2.1;
  (if on_first
   then m ← AddAsynchronousMessage p1;
        m ← WithJSONContent order m;
        m ← ExpectsToReceive described m;
        ret ()
   else ret ());;
  m ← AddAsynchronousMessage p2;
  m ← WithJSONContent order m;
  m ← ExpectsToReceive described m;
  ret (p1, p2, m).

(** the builder calls that lead to [built] *)
Definition build (d : option string) : Exec (Pact * Message) :=
  r ← NewMessagePact shop;
  p ← deref r.1;
  m ← AddAsynchronousMessage p;
  m ← WithJSONContent order m;
  m ← match d with
      | Some d => ExpectsToReceive d m
      | None => ret m
      end;
  ret (p, m).

End example.

(** * Properties *)

(** The builder calls of the example lead to the state the statements below
    start from; an interaction whose description was never set has the empty
    description. *)
Lemma example_build_described :
  example.build (Some example.described) engine.fresh
  = (Returned (example.pact, example.message),
     example.built example.described, []).
Proof. reflexivity. Qed.

Lemma example_build_undescribed :
  example.build None engine.fresh
  = (Returned (example.pact, example.message), example.built "", []).
Proof. reflexivity. Qed.

(** The sessions with two pacts are reached through the source as well:
    two calls of [NewMessagePact], and a message built on the second pact
    (and on the first, for the twins). *)
Lemma example_build_two_pacts :
  example.build_two {| Consumer := "web"; Provider := "billing"; PactDir := "" |}
    false engine.fresh
  = (Returned (example.pact, example.billing, example.foreign),
     example.two_pacts, []).
Proof. reflexivity. Qed.

Lemma example_build_twins :
  example.build_two example.shop true engine.fresh
  = (Returned (example.pact, example.twin_pact, example.twin_message),
     engine.set_disk example.twins ∅, []).
Proof. reflexivity. Qed.

Section Orchestrator.
Context `{R : GoRuntime} `{N : !native.Engine}.

Implicit Types (p : Pact) (msg : Message) (h : AsynchronousConsumer)
  (m : AsynchronousMessage any) (s : native.state).

Ltac run := unfold mbind, mret, Exec_bind, Exec_ret, bind, ret, emit, call,
              read, deref, panic; simpl.

Lemma yield_verification p msg handler m s :
  ∀ out s' tr,
    yield p msg handler m s = (out, s', tr) →
    verification p handler s out s' tr.
Proof.
  intros out s' tr. unfold yield. run.
  destruct handler as [h|]; simpl; [|intros [= <- <- <-]; by constructor].
  destruct (h m) as [e|] eqn:Hh; simpl.
  { intros [= <- <- <-]. by econstructor. }
  destruct (messageserver p) as [server|] eqn:Hs; simpl;
    [|intros [= <- <- <-]; by econstructor].
  destruct (native.WritePactFile server (PactDir (config p)) false s)
    as [r s1] eqn:Hw; simpl.
  intros [= <- <- <-]. by econstructor.
Qed.

(** Every run of [verifyMessageConsumerRaw] ends in one of the five ways. *)
Lemma verifyMessageConsumerRaw_verification p msg handler s :
  ∀ out s' tr,
    verifyMessageConsumerRaw p msg handler s = (out, s', tr) →
    verification p handler s out s' tr.
Proof.
  intros out s' tr. unfold verifyMessageConsumerRaw. run.
  destruct (json_Unmarshal_AsynchronousMessage _) as [m|e]; simpl;
    [|intros [= <- <- <-]; constructor].
  destruct (reflect_TypeOf (Type_ msg)) as [t|]; simpl.
  2:{ destruct (yield p msg handler m s) as [[o1 s1] t1] eqn:Hy.
      intros [= <- <- <-]. by eapply yield_verification. }
  destruct (decide (rtype_Name t ≠ "interface")); simpl.
  2:{ destruct (yield p msg handler m s) as [[o1 s1] t1] eqn:Hy.
      intros [= <- <- <-]. by eapply yield_verification. }
  destruct (json_Marshal (Content m)) as [text|e]; simpl;
    [|intros [= <- <- <-]; constructor].
  destruct (json_Unmarshal text (Type_ msg)) as [v [e|]]; simpl;
    [intros [= <- <- <-]; constructor|].
  destruct (yield p _ handler _ s) as [[o1 s1] t1] eqn:Hy.
  intros [= <- <- <-]. by eapply yield_verification.
Qed.

(** When the handler has returned an error, the run ended there. *)
Lemma verification_handler_error p handler s out s' tr m e :
  verification p handler s out s' tr →
  Handled m (Some e) ∈ tr →
  ∃ msg', out = Returned (msg', Some e) ∧ s' = s ∧ tr = [Handled m (Some e)].
Proof.
  intros Hv Hin. destruct Hv as [| |h m0 msg0 e0 _ _| |h m0 msg0 server r s1 _ _ _ _].
  - by apply elem_of_nil in Hin.
  - by apply elem_of_nil in Hin.
  - apply list_elem_of_singleton in Hin as [= <- <-]. eauto.
  - apply list_elem_of_singleton in Hin. discriminate.
  - apply elem_of_cons in Hin as [Hin|Hin]; [discriminate|].
    apply list_elem_of_singleton in Hin. discriminate.
Qed.

(** C2. If the handler returns an error, the verification fails, no write
    of the pact file is attempted, and the state of the engine, with the
    pact file on disk, is what it was before the call. *)
Theorem handler_error_blocks_persistence p msg handler s out s' tr m e :
  verifyMessageConsumerRaw p msg handler s = (out, s', tr) →
  Handled m (Some e) ∈ tr →
  (∃ msg' e', out = Returned (msg', Some e'))
  ∧ s' = s
  ∧ ∀ server dir overwrite r, Wrote server dir overwrite r ∉ tr.
Proof.
  intros Hrun Hin. apply verifyMessageConsumerRaw_verification in Hrun.
  destruct (verification_handler_error _ _ _ _ _ _ _ _ Hrun Hin)
    as (msg' & -> & -> & ->).
  split; [eauto|]. split; [done|].
  intros server dir overwrite r Hw.
  apply list_elem_of_singleton in Hw. discriminate.
Qed.

(** C6, as the code has it.  If the handler returns an error, the
    verification returns that very error: it is not wrapped. *)
Theorem handler_error_returned_as_is p msg handler s out s' tr m e :
  verifyMessageConsumerRaw p msg handler s = (out, s', tr) →
  Handled m (Some e) ∈ tr →
  ∃ msg', out = Returned (msg', Some e).
Proof.
  intros Hrun Hin. apply verifyMessageConsumerRaw_verification in Hrun.
  destruct (verification_handler_error _ _ _ _ _ _ _ _ Hrun Hin)
    as (msg' & -> & _ & _).
  eauto.
Qed.

(** C1, as the code has it.  The description is not checked: a message
    whose description is empty is handed to the handler like any other
    (here without a target type), and when the handler accepts it the
    pact file is written, without overwriting; the verification returns
    what the handler or the write returns. *)
Theorem empty_description_is_verified p msg h s m :
  json_Unmarshal_AsynchronousMessage
    (native.ReifyMessage (messageHandle msg) s) = inl m →
  Description m = "" →
  reflect_TypeOf (Type_ msg) = None →
  verifyMessageConsumerRaw p msg (Some h) s =
    match h m, messageserver p with
    | Some e, _ => (Returned (msg, Some e), s, [Handled m (Some e)])
    | None, Some server =>
        let '(r, s') :=
          native.WritePactFile server (PactDir (config p)) false s in
        (Returned (msg, r), s',
         [Handled m None; Wrote server (PactDir (config p)) false r])
    | None, None => (Panicked, s, [Handled m None])
    end.
Proof.
  intros Hbody _ Htype. unfold verifyMessageConsumerRaw. run.
  rewrite Hbody, Htype. simpl. unfold yield. run.
  destruct (h m) as [e|]; simpl; [done|].
  destruct (messageserver p) as [server|]; simpl; [|done].
  by destruct (native.WritePactFile server (PactDir (config p)) false s).
Qed.


(** C9. [NewMessagePact] returns a pact and a nil error for every
    configuration: nothing is validated.  The pact has the consumer and the
    provider it was given, empty or not, and the pact directory it was
    given, except that an empty one has become the [pacts] directory under
    the working directory; its server is a new message server for the
    consumer and the provider, and the engine is set up after that. *)
Theorem NewMessagePact_never_fails (c : Config) s :
  ∃ p,
    NewMessagePact c s =
      (Returned (Some p, None),
       native.Init (native.NewMessageServer (Consumer c) (Provider c) s).2, [])
    ∧ Consumer (config p) = Consumer c
    ∧ Provider (config p) = Provider c
    ∧ PactDir (config p) =
        (if decide (PactDir c = "")
         then filepath_Join [os_Getwd.1; "pacts"]
         else PactDir c)
    ∧ messageserver p =
        Some (native.NewMessageServer (Consumer c) (Provider c) s).1.
Proof.
  unfold NewMessagePact, validateConfig. run.
  destruct os_Getwd as [dir err]. simpl.
  destruct (decide (PactDir c = "")) as [Hdir|Hdir]; simpl;
    destruct (native.NewMessageServer (Consumer c) (Provider c) s); simpl;
    eexists; (split; [reflexivity|]); simpl; by rewrite ?decide_True, ?decide_False.
Qed.

(** C10. [AddMessage] does what [AddAsynchronousMessage] does: the same
    result, the same state of the engine afterwards, the same effects.
    Both return a new message of the pact's server, bound to the pact, and
    panic on a pact without server. *)
Theorem AddMessage_is_AddAsynchronousMessage p s :
  AddMessage p s = AddAsynchronousMessage p s
  ∧ AddMessage p s =
      match messageserver p with
      | Some server =>
          let '(message, s') := native.NewMessage server s in
          (Returned {| messageHandle := message; messagePactV3 := p;
                       Type_ := nil; handler := None |}, s', [])
      | None => (Panicked, s, [])
      end.
Proof.
  split; [done|].
  unfold AddMessage, AddAsynchronousMessage. run.
  destruct (messageserver p) as [server|]; simpl; [|done].
  by destruct (native.NewMessage server s).
Qed.



End Orchestrator.

(** ** The engine of the specification *)

Section Reification.

Lemma map_sequence_lookup {A} (m : gmap string (option A)) m' k v :
  map_sequence m = Some m' → m' !! k = Some v → m !! k = Some (Some v).
Proof.
  unfold map_sequence. case_decide; [|done]. intros [= <-].
  rewrite lookup_omap. destruct (m !! k) as [[x|]|]; simpl; congruence.
Qed.

Lemma is_plain_Mapping (fields : gmap string MatcherNode) :
  is_plain (Mapping fields) = true ↔
  map_Forall (λ _ v, is_plain v = true) fields.
Proof. simpl. apply (map_fold_andb_true (λ _ v, is_plain v)). Qed.

Lemma is_plain_Sequence (elems : list MatcherNode) :
  is_plain (Sequence elems) = true ↔ Forall (λ v, is_plain v = true) elems.
Proof. simpl. rewrite forallb_forall, Forall_forall. by setoid_rewrite list_elem_of_In. Qed.

Lemma minimum_count_elem k (examples : list MatcherNode) v :
  v ∈ minimum_count k examples → v ∈ examples.
Proof.
  unfold minimum_count. intros Hv.
  apply (subseteq_take k) in Hv.
  apply list_elem_of_join in Hv as (l & Hv & Hl).
  by apply elem_of_replicate in Hl as [-> _].
Qed.

Lemma reify_node_plain (n v : MatcherNode) :
  reify_node n = Some v → is_plain v = true.
Proof.
  revert v.
  induction n as [x|elems IH|fields IH|value rule g IH]
    using MatcherNode_nested_ind; intros v; simpl.
  - by intros [= <-].
  - destruct (mapM reify_node elems) as [elems'|] eqn:Hm; [|done].
    simpl. intros [= <-]. apply is_plain_Sequence.
    apply mapM_Some in Hm.
    induction Hm as [|x y l l' Hxy _ IHl]; [done|].
    apply Forall_cons in IH as [Hx Hl]. constructor; eauto.
  - destruct (map_sequence (reify_node <$> fields)) as [fields'|] eqn:Hm; [|done].
    simpl. intros [= <-]. apply is_plain_Mapping. intros k v Hv.
    pose proof (map_sequence_lookup _ _ _ _ Hm Hv) as Hk.
    rewrite lookup_fmap in Hk.
    destruct (fields !! k) as [x|] eqn:Hx; [|done].
    simpl in Hk. injection Hk as Hk. by apply (IH k x Hx).
  - destruct rule as [|pattern| |spec|min max|kind]; eauto.
    + destruct value as [[]| | |]; eauto.
      destruct (canonical_instance spec); [|done]. by intros [= <-].
    + destruct (reify_node value) as [r|] eqn:Hr; [|by destruct min].
      specialize (IH r eq_refl).
      destruct r as [x|examples|fields|]; destruct min as [k|];
        intros [= <-]; try done.
      apply is_plain_Sequence, Forall_forall. intros v Hv.
      apply is_plain_Sequence in IH.
      eapply Forall_forall in IH; [done|]. by eapply minimum_count_elem.
    + done.
Qed.

End Reification.

(** C8. The output of reification carries no matching rule: whenever a
    tree reifies to a value, that value is plain, so are the elements of its
    sequences and the values of its mappings, all the way down. *)
Theorem reified_is_plain (M v : MatcherNode) :
  reify M = inl v → is_plain v = true.
Proof.
  unfold reify. destruct (reify_node M) as [r|] eqn:Hr; [|done].
  intros [= <-]. by eapply reify_node_plain.
Qed.

Section ContractStore.

Implicit Types (i j : MessageInteraction) (existing new : list MessageInteraction).

Lemma merge_interactions_cons existing j new :
  merge_interactions existing (j :: new) =
  merge_interactions (if decide (j ∈ existing) then existing else existing ++ [j]) new.
Proof. done. Qed.







(** what the store writes has no interaction twice, when what it found had
    none twice *)
Lemma merge_interactions_NoDup existing new :
  NoDup existing → NoDup (merge_interactions existing new).
Proof.
  revert existing. induction new as [|j new IH]; intros existing Hnd; [done|].
  rewrite merge_interactions_cons. apply IH. case_decide; [done|].
  apply NoDup_app. split; [done|]. split; [|apply NoDup_singleton].
  intros x Hx Hj. apply list_elem_of_singleton in Hj as ->. done.
Qed.

(** a write changes the disk only *)
Lemma WritePactFile_servers server dir overwrite (s : engine.State) :
  engine.servers (engine.WritePactFile server dir overwrite s).2 = engine.servers s.
Proof.
  unfold engine.WritePactFile.
  destruct (engine.servers s !! server) as [st|]; [|done].
  by case_decide.
Qed.



End ContractStore.



(** ** The statements on the example session *)

(** C1 is not what the code does: the interaction below has an empty
    description (it was never set), and its verification invokes the
    handler, writes the pact file and returns a nil error. *)
Lemma empty_description_counterexample :
  engine.lookup_message (messageHandle example.message) (example.built "")
    = Some (example.interaction "")
  ∧ description (example.interaction "") = ""
  ∧ verifyMessageConsumerRaw example.pact example.message (Some example.accept)
      (example.built "")
    = (Returned (example.message, None), example.persisted "",
       [Handled (example.delivered "") None; Wrote 0 "/work/pacts" false None])
  ∧ ¬ ((∃ msg' e, Returned (example.message, @None error) = Returned (msg', Some e))
       ∧ (∀ m r, Handled m r ∉
                 [Handled (example.delivered "") None;
                  Wrote 0 "/work/pacts" false None])
       ∧ example.persisted "" = example.built "").
Proof.
  split; [reflexivity|]. split; [reflexivity|]. split; [reflexivity|].
  intros ((msg' & e & [=]) & _).
Qed.

Lemma empty_description_is_verified_witness :
  verifyMessageConsumerRaw example.pact example.message (Some example.accept)
    (example.built "")
  = (Returned (example.message, None), example.persisted "",
     [Handled (example.delivered "") None; Wrote 0 "/work/pacts" false None]).
Proof.
  rewrite (empty_description_is_verified example.pact example.message
             example.accept (example.built "") (example.delivered ""));
    reflexivity.
Defined.

Lemma handler_error_blocks_persistence_witness :
  let run := verifyMessageConsumerRaw example.pact example.message
               (Some example.reject) (example.built example.described) in
  run.2 = [Handled (example.delivered example.described) (Some example.boom)]
  ∧ (∃ msg' e', run.1.1 = Returned (msg', Some e'))
  ∧ run.1.2 = example.built example.described
  ∧ ∀ server dir overwrite r, Wrote server dir overwrite r ∉ run.2.
Proof.
  intros run. split; [reflexivity|].
  apply (handler_error_blocks_persistence example.pact example.message
           (Some example.reject) (example.built example.described)
           run.1.1 run.1.2 run.2
           (example.delivered example.described) example.boom).
  - reflexivity.
  - left.
Defined.

(** C6 is not what the code does: the handler below returns an error,
    and the verification returns that error itself, which wraps nothing. *)
Lemma handler_error_wrapped_counterexample :
  let run := verifyMessageConsumerRaw example.pact example.message
               (Some example.reject) (example.built example.described) in
  Handled (example.delivered example.described) (Some example.boom) ∈ run.2
  ∧ run.1.1 = Returned (example.message, Some example.boom)
  ∧ Unwrap example.boom = None
  ∧ ¬ ∃ msg' e', run.1.1 = Returned (msg', Some e')
                 ∧ Unwrap e' = Some example.boom.
Proof.
  intros run. split; [left|]. split; [reflexivity|]. split; [reflexivity|].
  intros (msg' & e' & Hout & Hwrap).
  change (Returned (example.message, Some example.boom) = Returned (msg', Some e'))
    in Hout.
  injection Hout as _ <-. discriminate Hwrap.
Qed.

Lemma handler_error_returned_as_is_witness :
  ∃ msg', (verifyMessageConsumerRaw example.pact example.message
             (Some example.reject) (example.built example.described)).1.1
          = Returned (msg', Some example.boom).
Proof.
  set (run := verifyMessageConsumerRaw example.pact example.message
                (Some example.reject) (example.built example.described)).
  apply (handler_error_returned_as_is example.pact example.message
           (Some example.reject) (example.built example.described)
           run.1.1 run.1.2 run.2
           (example.delivered example.described) example.boom).
  - reflexivity.
  - left.
Defined.



Lemma NewMessagePact_never_fails_witness :
  (* an empty pact directory *)
  (∃ p,
     NewMessagePact example.shop engine.fresh
     = (Returned (Some p, None), example.configured, [])
     ∧ Consumer (config p) = "shop"
     ∧ Provider (config p) = "orders"
     ∧ PactDir (config p) = "/work/pacts"
     ∧ messageserver p = Some 0)
  (* and one that is given, with no consumer and no provider *)
  ∧ ∃ p,
      NewMessagePact {| Consumer := ""; Provider := ""; PactDir := "out/pacts" |}
        engine.fresh
      = (Returned (Some p, None),
         engine.Init (engine.NewMessageServer "" "" engine.fresh).2, [])
      ∧ Consumer (config p) = ""
      ∧ Provider (config p) = ""
      ∧ PactDir (config p) = "out/pacts"
      ∧ messageserver p = Some 0.
Proof.
  split.
  - exact (NewMessagePact_never_fails example.shop engine.fresh).
  - exact (NewMessagePact_never_fails
             {| Consumer := ""; Provider := ""; PactDir := "out/pacts" |}
             engine.fresh).
Defined.





Lemma reified_is_plain_witness :
  reify (to_node example.order) = inl (to_node example.reified_order)
  ∧ is_plain (to_node example.order) = false
  ∧ is_plain (to_node example.reified_order) = true.
Proof.
  split; [reflexivity|]. split; [reflexivity|].
  apply (reified_is_plain (to_node example.order)). reflexivity.
Defined.

(** * Further properties of the source *)

Section Verification.
Context `{R : GoRuntime} `{N : !native.Engine}.

Implicit Types (p : Pact) (msg : Message) (h : AsynchronousConsumer)
  (m : AsynchronousMessage any) (s : native.state).

Ltac run := unfold mbind, mret, Exec_bind, Exec_ret, bind, ret, emit, call,
              call_, read, deref, panic; simpl.

(** X1. [Verify] returns what [verifyMessageConsumerRaw] returns and leaves
    the engine as that call left it; it reports to the test, once and after
    all other effects, exactly when the error is not nil.  A panic goes
    through unreported. *)
Theorem Verify_reports_failures p msg hdl s :
  Verify p msg hdl s =
    let '(out, s', tr) := verifyMessageConsumerRaw p msg hdl s in
    match out with
    | Returned (_, Some err) =>
        (out, s', tr ++ [TestErrorf ("VerifyMessageConsumer failed: " +:+ Error err)])
    | _ => (out, s', tr)
    end.
Proof.
  unfold Verify. run.
  destruct (verifyMessageConsumerRaw p msg hdl s) as [[[[msg' [e|]]|] s'] tr];
    simpl; by rewrite ?app_nil_r.
Qed.

(** X2. When the text returned by [ReifyMessage] does not decode into a
    message, the verification returns the fixed framework error (the decode
    error is not part of it), whatever the target type and the handler are:
    the handler is not invoked, even a nil handler does not panic, nothing
    is written and the message is as it was. *)
Theorem undecodable_body_is_a_framework_error p msg hdl s e :
  json_Unmarshal_AsynchronousMessage
    (native.ReifyMessage (messageHandle msg) s) = inr e →
  verifyMessageConsumerRaw p msg hdl s =
    (Returned (msg,
               Some (errorString
                 "unexpected response from message server, this is a bug in the framework")),
     s, []).
Proof.
  intros Hbody. unfold verifyMessageConsumerRaw. run. by rewrite Hbody.
Qed.

(** X3. Without a handler nothing happens: the verification either fails
    before the handler is due or panics on calling it; in both cases the
    engine is as it was, no event is recorded and no success is returned. *)
Theorem nil_handler_never_succeeds p msg s out s' tr :
  verifyMessageConsumerRaw p msg None s = (out, s', tr) →
  tr = [] ∧ s' = s
  ∧ (out = Panicked ∨ ∃ msg' e, out = Returned (msg', Some e)).
Proof.
  intros Hrun. apply verifyMessageConsumerRaw_verification in Hrun.
  destruct Hrun as [msg0 e0| |h m0 msg0 e0 Hh _|h m0 Hh _ _
                    |h m0 msg0 server0 r0 s1 Hh _ _ _];
    try discriminate; eauto 10.
Qed.

(** X4. The pact file is written only after the handler has accepted the
    message, once, never with overwrite, to the pact directory of the
    configuration and through the server of the pact the verification was
    called on; the verification returns the result of that write as it
    is, error or not. *)
Theorem write_only_after_accept p msg hdl s out s' tr server dir overwrite r :
  verifyMessageConsumerRaw p msg hdl s = (out, s', tr) →
  Wrote server dir overwrite r ∈ tr →
  overwrite = false
  ∧ dir = PactDir (config p)
  ∧ messageserver p = Some server
  ∧ native.WritePactFile server dir false s = (r, s')
  ∧ (∃ m, tr = [Handled m None; Wrote server dir false r])
  ∧ ∃ msg', out = Returned (msg', r).
Proof.
  intros Hrun Hin. apply verifyMessageConsumerRaw_verification in Hrun.
  destruct Hrun as [| |h m0 msg0 e0 _ _|h m0 _ _ _
                    |h m0 msg0 server0 r0 s1 _ _ Hs Hw].
  - by apply elem_of_nil in Hin.
  - by apply elem_of_nil in Hin.
  - apply list_elem_of_singleton in Hin. discriminate.
  - apply list_elem_of_singleton in Hin. discriminate.
  - apply elem_of_cons in Hin as [Hin|Hin]; [discriminate|].
    apply list_elem_of_singleton in Hin. injection Hin as -> -> -> ->.
    eauto 10.
Qed.

(** X5. The handler is invoked at most once, before any other recorded
    effect, and what is recorded as its result is what it returned. *)
Theorem handler_invoked_at_most_once p msg hdl s out s' tr i m r :
  verifyMessageConsumerRaw p msg hdl s = (out, s', tr) →
  tr !! i = Some (Handled m r) →
  i = 0 ∧ ∃ h, hdl = Some h ∧ r = h m.
Proof.
  intros Hrun Hi. apply verifyMessageConsumerRaw_verification in Hrun.
  destruct Hrun as [| |h m0 msg0 e0 Hh Hr|h m0 Hh Hr _
                    |h m0 msg0 server0 r0 s1 Hh Hr _ _];
    try (by destruct i).
  - destruct i as [|[|i]]; [|done..]. injection Hi as <- <-. eauto.
  - destruct i as [|[|i]]; [|done..]. injection Hi as <- <-. eauto.
  - destruct i as [|[|[|i]]]; [|done..]. injection Hi as <- <-. eauto.
Qed.

(** X6. A verification that writes no pact file leaves the engine, and
    with it the disk, exactly as it was. *)
Theorem engine_unchanged_without_write p msg hdl s out s' tr :
  verifyMessageConsumerRaw p msg hdl s = (out, s', tr) →
  (∀ server dir overwrite r, Wrote server dir overwrite r ∉ tr) →
  s' = s.
Proof.
  intros Hrun Hno. apply verifyMessageConsumerRaw_verification in Hrun.
  destruct Hrun as [| | | |h m0 msg0 server0 r0 s1 _ _ _ _]; try done.
  exfalso. eapply Hno. right. left.
Qed.

(** X7. The verification returns a nil error exactly when the handler
    accepted the message and the write of the pact file returned a nil
    error. *)
Theorem success_is_accept_and_write p msg hdl s out s' tr :
  verifyMessageConsumerRaw p msg hdl s = (out, s', tr) →
  (∃ msg', out = Returned (msg', None))
  ↔ ∃ m server, tr = [Handled m None; Wrote server (PactDir (config p)) false None].
Proof.
  intros Hrun. apply verifyMessageConsumerRaw_verification in Hrun.
  destruct Hrun as [| |h m0 msg0 e0 _ _|h m0 _ _ _
                    |h m0 msg0 server0 r0 s1 _ _ _ _].
  - split; [intros [? [=]]|intros (? & ? & [=])].
  - split; [intros [? [=]]|intros (? & ? & [=])].
  - split; [intros [? [=]]|intros (? & ? & [=])].
  - split; [intros [? [=]]|intros (? & ? & [=])].
  - split.
    + intros [? [= _ ->]]. eauto.
    + intros (? & ? & [= _ _ ->]). eauto.
Qed.

(** what [yield] returns is the message it was given *)
Lemma yield_returns_the_message p msg hdl m s msg' r s' tr :
  yield p msg hdl m s = (Returned (msg', r), s', tr) → msg' = msg.
Proof.
  unfold yield. run.
  destruct hdl as [h|]; simpl; [|done].
  destruct (h m); simpl; [by intros [= <- _ _ _]|].
  destruct (messageserver p); simpl; [|done].
  destruct (native.WritePactFile _ _ _ _); simpl.
  by intros [= <- _ _ _].
Qed.

(** X8. The verification changes nothing of the message but its target
    type: the handle, the pact and the handler of the message are kept, and
    a message without target type is returned as it was. *)
Theorem verification_keeps_the_message p msg hdl s msg' r s' tr :
  verifyMessageConsumerRaw p msg hdl s = (Returned (msg', r), s', tr) →
  messageHandle msg' = messageHandle msg
  ∧ messagePactV3 msg' = messagePactV3 msg
  ∧ handler msg' = handler msg
  ∧ (reflect_TypeOf (Type_ msg) = None → msg' = msg).
Proof.
  unfold verifyMessageConsumerRaw. run.
  destruct (json_Unmarshal_AsynchronousMessage _) as [m|e]; simpl;
    [|by intros [= <- _ _ _]].
  destruct (reflect_TypeOf (Type_ msg)) as [t|]; simpl.
  2:{ destruct (yield p msg hdl m s) as [[o1 s1] t1] eqn:Hy.
      intros [= -> _ _]. by apply yield_returns_the_message in Hy as ->. }
  destruct (decide (rtype_Name t ≠ "interface")); simpl.
  2:{ destruct (yield p msg hdl m s) as [[o1 s1] t1] eqn:Hy.
      intros [= -> _ _]. by apply yield_returns_the_message in Hy as ->. }
  destruct (json_Marshal (Content m)) as [text|e]; simpl;
    [|by intros [= <- _ _ _]].
  destruct (json_Unmarshal text (Type_ msg)) as [v [e|]]; simpl.
  { by intros [= <- _ _ _]. }
  destruct (yield p _ hdl _ s) as [[o1 s1] t1] eqn:Hy.
  intros [= -> _ _]. by apply yield_returns_the_message in Hy as ->.
Qed.

(** X9. When the handler returns an error, [Verify] reports that error
    to the test, with its text, as the one effect after the handler call;
    it returns the error and the engine is as it was. *)
Theorem Verify_reports_the_handler_error p msg hdl s out s' tr m e :
  Verify p msg hdl s = (out, s', tr) →
  Handled m (Some e) ∈ tr →
  tr = [Handled m (Some e);
        TestErrorf ("VerifyMessageConsumer failed: " +:+ Error e)]
  ∧ s' = s
  ∧ ∃ msg', out = Returned (msg', Some e).
Proof.
  unfold Verify. run.
  destruct (verifyMessageConsumerRaw p msg hdl s) as [[o1 s1] t1] eqn:Hraw.
  apply verifyMessageConsumerRaw_verification in Hraw.
  destruct Hraw as [msg0 e0| |h m0 msg0 e0 _ _|h m0 _ _ _
                    |h m0 msg0 server0 [e0|] s1 _ _ _ _]; simpl;
    intros [= <- <- <-] Hin;
    repeat (apply elem_of_cons in Hin as [Hin|Hin]; try discriminate);
    try (by apply elem_of_nil in Hin).
  injection Hin as <- <-. eauto.
Qed.

(** X10. On a message that was given no handler, [Verify] of the message
    cannot succeed and touches nothing: it panics on the call of the nil
    handler, or fails before with an error that it reports to the test; the
    engine is as it was and no pact file is written. *)
Theorem Message_Verify_without_handler msg s out s' tr :
  handler msg = None →
  Message_Verify msg s = (out, s', tr) →
  s' = s
  ∧ ((out = Panicked ∧ tr = [])
     ∨ ∃ msg' e, out = Returned (msg', Some e)
                 ∧ tr = [TestErrorf ("VerifyMessageConsumer failed: " +:+ Error e)]).
Proof.
  intros Hnil. unfold Message_Verify, Verify. rewrite Hnil. run.
  destruct (verifyMessageConsumerRaw (messagePactV3 msg) msg None s)
    as [[o1 s1] t1] eqn:Hraw.
  apply verifyMessageConsumerRaw_verification in Hraw.
  destruct Hraw as [msg0 e0| |h m0 msg0 e0 Hh _|h m0 Hh _ _
                    |h m0 msg0 server0 r0 s1 Hh _ _ _]; try discriminate;
    simpl; intros [= <- <- <-]; eauto 10.
Qed.

(** X11. A pact made by [NewMessagePact] has a server, so that
    [AddAsynchronousMessage] on it does not panic: it returns a new message
    of that server, bound to the pact, with no target type and no handler
    yet, and records no effect. *)
Theorem NewMessagePact_then_AddAsynchronousMessage (c : Config) s p e s1 tr :
  NewMessagePact c s = (Returned (Some p, e), s1, tr) →
  ∃ server,
    messageserver p = Some server
    ∧ AddAsynchronousMessage p s1 =
        (Returned {| messageHandle := (native.NewMessage server s1).1;
                     messagePactV3 := p; Type_ := nil; handler := None |},
         (native.NewMessage server s1).2, []).
Proof.
  unfold NewMessagePact, validateConfig. run.
  destruct os_Getwd as [dir err]. simpl.
  destruct (decide (PactDir c = "")); simpl;
    destruct (native.NewMessageServer _ _ s) as [server s0]; simpl;
    intros [= <- _ <- _]; exists server; (split; [done|]);
    unfold AddAsynchronousMessage; run;
    by destruct (native.NewMessage server (native.Init s0)).
Qed.

(** X13. Setting the target type or the handler is independent of the
    calls that describe the interaction: in either order the engine ends
    in the same state and the same message comes back, whichever of the
    describing calls it is. *)
Theorem settings_commute_with_description (t : any) hdl msg s
    (st : V3ProviderState) (d contentType body : string)
    (md : gmap string string) (content : any) :
  let commutes (setting describe : Message → Exec Message) :=
    (m1 ← setting msg; describe m1) s = (m1 ← describe msg; setting m1) s in
  Forall (λ setting,
    Forall (commutes setting)
      [Given st; ExpectsToReceive d; WithMetadata md;
       WithBinaryContent contentType body; WithContent contentType body;
       WithJSONContent content])
    [AsType t; ConsumedBy hdl].
Proof.
  intros commutes. repeat constructor.
Qed.

(** what [yield] hands to the handler is the message it was given *)
Lemma yield_hands_over p msg hdl m s out s' tr m' r :
  yield p msg hdl m s = (out, s', tr) →
  tr !! 0 = Some (Handled m' r) →
  m' = m.
Proof.
  unfold yield. run.
  destruct hdl as [h|]; simpl; [|by intros [= _ _ <-]].
  destruct (h m); simpl; [by intros [= _ _ <-] [= <- _]|].
  destruct (messageserver p); simpl; [|by intros [= _ _ <-] [= <- _]].
  destruct (native.WritePactFile _ _ _ _); simpl.
  by intros [= _ _ <-] [= <- _].
Qed.

(** X14. With a target type, what the handler is given as content is the
    very value that the message holds as its type after the call (the
    decoder has filled it in); the description and the metadata that the
    handler sees are those of the reified message. *)
Theorem handler_receives_the_message_type p msg hdl s msg' r0 s' tr t m r :
  reflect_TypeOf (Type_ msg) = Some t →
  rtype_Name t ≠ "interface" →
  verifyMessageConsumerRaw p msg hdl s = (Returned (msg', r0), s', tr) →
  tr !! 0 = Some (Handled m r) →
  Content m = Type_ msg'
  ∧ ∃ m0,
      json_Unmarshal_AsynchronousMessage
        (native.ReifyMessage (messageHandle msg) s) = inl m0
      ∧ Description m = Description m0
      ∧ Metadata m = Metadata m0.
Proof.
  intros Htype Hname. unfold verifyMessageConsumerRaw. run.
  destruct (json_Unmarshal_AsynchronousMessage _) as [m0|e]; simpl;
    [|by intros [= _ _ _ <-]].
  rewrite Htype. simpl. destruct (decide (rtype_Name t ≠ "interface")); [|done].
  destruct (json_Marshal (Content m0)) as [text|e]; simpl;
    [|by intros [= _ _ _ <-]].
  destruct (json_Unmarshal text (Type_ msg)) as [v [e|]]; simpl.
  { by intros [= _ _ _ <-]. }
  destruct (yield p _ hdl _ s) as [[o1 s1] t1] eqn:Hy.
  intros [= -> <- <-] Hfirst.
  pose proof (yield_returns_the_message _ _ _ _ _ _ _ _ _ Hy) as ->.
  pose proof (yield_hands_over _ _ _ _ _ _ _ _ _ _ Hy Hfirst) as ->.
  eauto.
Qed.

End Verification.

(** ** The further statements on the example session *)

Lemma undecodable_body_is_a_framework_error_witness :
  engine.ReifyMessage (0, 0) example.built_unresolvable = ""
  ∧ verifyMessageConsumerRaw example.pact example.message (Some example.accept)
      example.built_unresolvable
    = (Returned (example.message,
                 Some (errorString
                   "unexpected response from message server, this is a bug in the framework")),
       example.built_unresolvable, []).
Proof.
  split; [reflexivity|].
  exact (undecodable_body_is_a_framework_error example.pact example.message
           (Some example.accept) example.built_unresolvable
           syntax_error eq_refl).
Defined.

Lemma nil_handler_never_succeeds_witness :
  let run := verifyMessageConsumerRaw example.pact example.message None
               (example.built example.described) in
  run.2 = [] ∧ run.1.2 = example.built example.described
  ∧ (run.1.1 = Panicked ∨ ∃ msg' e, run.1.1 = Returned (msg', Some e)).
Proof.
  intros run.
  exact (nil_handler_never_succeeds example.pact example.message
           (example.built example.described) run.1.1 run.1.2 run.2 eq_refl).
Defined.

Lemma write_only_after_accept_witness :
  (* the write fails: the directory cannot be written to *)
  let failure := errorString "IOError: cannot write to /work/pacts" in
  let run := verifyMessageConsumerRaw example.pact example.message
               (Some example.accept) example.read_only in
  false = false
  ∧ "/work/pacts" = PactDir (config example.pact)
  ∧ messageserver example.pact = Some 0
  ∧ native.WritePactFile 0 "/work/pacts" false example.read_only
    = (Some failure, run.1.2)
  ∧ (∃ m, run.2 = [Handled m None; Wrote 0 "/work/pacts" false (Some failure)])
  ∧ ∃ msg', run.1.1 = Returned (msg', Some failure).
Proof.
  intros failure run.
  apply (write_only_after_accept example.pact example.message
           (Some example.accept) example.read_only run.1.1 run.1.2 run.2
           0 "/work/pacts" false (Some failure) eq_refl).
  right. left.
Defined.

Lemma handler_invoked_at_most_once_witness :
  0 = 0 ∧ ∃ h, Some example.accept = Some h
               ∧ @None error = h (example.delivered example.described).
Proof.
  set (run := verifyMessageConsumerRaw example.pact example.message
                (Some example.accept) (example.built example.described)).
  exact (handler_invoked_at_most_once example.pact example.message
           (Some example.accept) (example.built example.described)
           run.1.1 run.1.2 run.2 0 (example.delivered example.described) None
           eq_refl eq_refl).
Defined.

Lemma engine_unchanged_without_write_witness :
  (verifyMessageConsumerRaw example.pact example.message (Some example.reject)
     (example.built example.described)).1.2
  = example.built example.described.
Proof.
  set (run := verifyMessageConsumerRaw example.pact example.message
                (Some example.reject) (example.built example.described)).
  apply (engine_unchanged_without_write example.pact example.message
           (Some example.reject) (example.built example.described)
           run.1.1 run.1.2 run.2 eq_refl).
  intros server dir overwrite r Hin.
  apply list_elem_of_singleton in Hin. discriminate Hin.
Defined.

Lemma success_is_accept_and_write_witness :
  let run := verifyMessageConsumerRaw example.pact example.message
               (Some example.accept) (example.built example.described) in
  run.1.1 = Returned (example.message, None)
  ∧ ((∃ msg', run.1.1 = Returned (msg', None))
     ↔ ∃ m server, run.2 = [Handled m None;
                            Wrote server (PactDir (config example.pact)) false None]).
Proof.
  intros run. split; [reflexivity|].
  exact (success_is_accept_and_write example.pact example.message
           (Some example.accept) (example.built example.described)
           run.1.1 run.1.2 run.2 eq_refl).
Defined.

Lemma verification_keeps_the_message_witness :
  let filled := PointerTo (StructShape "Order" [("orderId", StringShape);
                                                ("amount", NumberShape)])
                          (to_node example.reified_order) in
  messageHandle (example.typed filled) = messageHandle (example.typed example.Order)
  ∧ messagePactV3 (example.typed filled) = messagePactV3 (example.typed example.Order)
  ∧ handler (example.typed filled) = handler (example.typed example.Order)
  ∧ (reflect_TypeOf (Type_ (example.typed example.Order)) = None →
     example.typed filled = example.typed example.Order).
Proof.
  intros filled.
  set (run := verifyMessageConsumerRaw example.pact (example.typed example.Order)
                (Some example.accept) (example.built example.described)).
  exact (verification_keeps_the_message example.pact (example.typed example.Order)
           (Some example.accept) (example.built example.described)
           (example.typed filled) None run.1.2 run.2 eq_refl).
Defined.

Lemma Verify_reports_the_handler_error_witness :
  let run := Verify example.pact example.message (Some example.reject)
               (example.built example.described) in
  run.2 = [Handled (example.delivered example.described) (Some example.boom);
           TestErrorf "VerifyMessageConsumer failed: boom"]
  ∧ run.1.2 = example.built example.described
  ∧ ∃ msg', run.1.1 = Returned (msg', Some example.boom).
Proof.
  intros run.
  apply (Verify_reports_the_handler_error example.pact example.message
           (Some example.reject) (example.built example.described)
           run.1.1 run.1.2 run.2
           (example.delivered example.described) example.boom eq_refl).
  left.
Defined.

Lemma Message_Verify_without_handler_witness :
  let run := Message_Verify example.message (example.built example.described) in
  run.1.1 = Panicked
  ∧ run.1.2 = example.built example.described
  ∧ ((run.1.1 = Panicked ∧ run.2 = [])
     ∨ ∃ msg' e,
         run.1.1 = Returned (msg', Some e)
         ∧ run.2 = [TestErrorf ("VerifyMessageConsumer failed: " +:+ Error e)]).
Proof.
  intros run. split; [reflexivity|].
  exact (Message_Verify_without_handler example.message
           (example.built example.described) run.1.1 run.1.2 run.2
           eq_refl eq_refl).
Defined.

Lemma NewMessagePact_then_AddAsynchronousMessage_witness :
  ∃ server,
    messageserver example.pact = Some server
    ∧ AddAsynchronousMessage example.pact example.configured =
        (Returned {| messageHandle := (native.NewMessage server example.configured).1;
                     messagePactV3 := example.pact;
                     Type_ := nil; handler := None |},
         (native.NewMessage server example.configured).2, []).
Proof.
  exact (NewMessagePact_then_AddAsynchronousMessage example.shop engine.fresh
           example.pact None example.configured [] eq_refl).
Defined.

Lemma handler_receives_the_message_type_witness :
  let filled := PointerTo (StructShape "Order" [("orderId", StringShape);
                                                ("amount", NumberShape)])
                          (to_node example.reified_order) in
  Content (set_Content (example.delivered example.described) filled)
  = Type_ (example.typed filled)
  ∧ ∃ m0,
      json_Unmarshal_AsynchronousMessage
        (native.ReifyMessage (messageHandle (example.typed example.Order))
           (example.built example.described)) = inl m0
      ∧ Description (set_Content (example.delivered example.described) filled)
        = Description m0
      ∧ Metadata (set_Content (example.delivered example.described) filled)
        = Metadata m0.
Proof.
  intros filled.
  set (run := verifyMessageConsumerRaw example.pact (example.typed example.Order)
                (Some example.accept) (example.built example.described)).
  exact (handler_receives_the_message_type example.pact
           (example.typed example.Order) (Some example.accept)
           (example.built example.described)
           (example.typed filled) None run.1.2 run.2 ""
           (set_Content (example.delivered example.described) filled) None
           eq_refl ltac:(discriminate) eq_refl eq_refl).
Defined.
